(** * express-jobly: the query-construction core

    A shallow embedding of [helpers/sql.js] ([sqlForPartialUpdate]),
    [models/company.js] and [models/job.js], and the properties of the SQL
    text and positional values they hand to the store.

    Layout: the JavaScript data the code manipulates ([JS]), the error
    classes it throws, the asynchronous store interface ([Async], run
    against a store that answers or one that may fail), then the three
    source modules, then the theorems. *)

From Stdlib Require Import ZArith List String Ascii Bool Lia.
From Stdlib Require Import Numbers.DecimalString Numbers.DecimalNat.
Import ListNotations.

Local Open Scope list_scope.
Local Open Scope string_scope.

(* ================================================================== *)
(** ** JavaScript values *)
(* ================================================================== *)

Module JS.

(** The values that reach the models.  [VNum z] is the number z, for the
    integers a number holds exactly and prints in plain decimal (employee
    counts, salaries, ids, positions: magnitudes up to 2^53 - 1); fractions,
    infinities and larger magnitudes do not occur in this development.
    [VBuiltin printed] is a function or object that a plain object inherits
    from [Object.prototype], known by the text it prints as. *)
Inductive Value : Type :=
| VUndefined
| VNull
| VBool (b : bool)
| VNum (z : Z)
| VNaN
| VStr (s : string)
| VBuiltin (printed : string).

(** A plain object, as an object literal, [JSON.parse] or the store's driver
    makes one: its own enumerable string-keyed properties, listed in the
    order [Object.keys] enumerates them.  Its prototype is
    [Object.prototype]. *)
Definition Object : Type := list (string * Value).

Definition keys (o : Object) : list string := map fst o.
Definition values (o : Object) : list Value := map snd o.

(** The members of [Object.prototype], with the text each prints as: the
    built-in functions print as native code, and [__proto__] reads as the
    prototype object itself. *)
Definition nativeCode (name : string) : string :=
  "function " ++ name ++ "() { [native code] }".

Definition objectPrototype : list (string * string) :=
  [ ("constructor", nativeCode "Object");
    ("__defineGetter__", nativeCode "__defineGetter__");
    ("__defineSetter__", nativeCode "__defineSetter__");
    ("hasOwnProperty", nativeCode "hasOwnProperty");
    ("__lookupGetter__", nativeCode "__lookupGetter__");
    ("__lookupSetter__", nativeCode "__lookupSetter__");
    ("isPrototypeOf", nativeCode "isPrototypeOf");
    ("propertyIsEnumerable", nativeCode "propertyIsEnumerable");
    ("toString", nativeCode "toString");
    ("valueOf", nativeCode "valueOf");
    ("__proto__", "[object Object]");
    ("toLocaleString", nativeCode "toLocaleString") ].

Fixpoint assoc {A : Type} (l : list (string * A)) (k : string) : option A :=
  match l with
  | [] => None
  | (k', a) :: l' => if String.eqb k' k then Some a else assoc l' k
  end.

Definition inherited (k : string) : option string := assoc objectPrototype k.

(** The own property [k] of [o], if it has one. *)
Definition ownProp (o : Object) (k : string) : option Value := assoc o k.

(** [o[k]] and [o.k]: the own property's value, else what [Object.prototype]
    has under that name, else [undefined]. *)
Definition prop (o : Object) (k : string) : Value :=
  match ownProp o k with
  | Some v => v
  | None =>
      match inherited k with
      | Some printed => VBuiltin printed
      | None => VUndefined
      end
  end.

(** ToBoolean. *)
Definition truthy (v : Value) : bool :=
  match v with
  | VUndefined | VNull | VNaN => false
  | VBool b => b
  | VNum z => negb (z =? 0)%Z
  | VStr s => negb (s =? EmptyString)
  | VBuiltin _ => true
  end.

(** [a || b]. *)
Definition or (a b : Value) : Value := if truthy a then a else b.

(** [v === true]. *)
Definition isTrue (v : Value) : bool :=
  match v with
  | VBool true => true
  | _ => false
  end.

Definition showNat (n : nat) : string :=
  NilEmpty.string_of_uint (Nat.to_uint n).

Definition showZ (z : Z) : string :=
  NilEmpty.string_of_int (Z.to_int z).

(** ToString, as applied by template literals and string [+]. *)
Definition toString (v : Value) : string :=
  match v with
  | VUndefined => "undefined"
  | VNull => "null"
  | VBool true => "true"
  | VBool false => "false"
  | VNum z => showZ z
  | VNaN => "NaN"
  | VStr s => s
  | VBuiltin printed => printed
  end.

(** [Array.prototype.join] on an array of strings. *)
Fixpoint join (sep : string) (l : list string) : string :=
  match l with
  | [] => EmptyString
  | [x] => x
  | x :: l' => x ++ sep ++ join sep l'
  end.

(** [Array.prototype.map] with the two-argument callback [(x, idx) => ...]. *)
Fixpoint mapiFrom {A B : Type} (f : A -> nat -> B) (i : nat) (l : list A)
  : list B :=
  match l with
  | [] => []
  | x :: l' => f x i :: mapiFrom f (S i) l'
  end.

Definition mapi {A B : Type} (f : A -> nat -> B) (l : list A) : list B :=
  mapiFrom f 0 l.

(** [arr.push(x)], returning the array after the push. *)
Definition push {A : Type} (arr : list A) (x : A) : list A := (arr ++ [x])%list.

(** [rows[0]]: [None] stands for [undefined]. *)
Definition first {A : Type} (rows : list A) : option A := nth_error rows 0.

(** *** Relational comparison *)

(** ToPrimitive with hint number, then ToNumber for what is not text:
    strings stay text, an inherited function or object becomes the text it
    prints as, and the rest is a number, [None] standing for NaN. *)
Inductive Primitive : Type :=
| PText (s : string)
| PNumber (n : option Z).

Definition toPrimitive (v : Value) : Primitive :=
  match v with
  | VStr s => PText s
  | VBuiltin printed => PText printed
  | VUndefined => PNumber None
  | VNaN => PNumber None
  | VNull => PNumber (Some 0%Z)
  | VBool true => PNumber (Some 1%Z)
  | VBool false => PNumber (Some 0%Z)
  | VNum z => PNumber (Some z)
  end.

(** What is left to the language runtime: StringToNumber, which [>] goes
    through when a text meets a number.  The number a text converts to
    (decimals, exponents, hexadecimal, rounding, NaN) is not computed here;
    the runtime answers whether it lies above, or below, a given integer. *)
Record Runtime : Type := mkRuntime {
  textAbove : string -> Z -> bool;
  textBelow : string -> Z -> bool
}.

(** [a > b]: two texts compare by code units; a text and a number compare
    through the runtime's conversion of the text; two numbers compare as
    numbers; and any comparison with NaN is false. *)
Definition gt (rt : Runtime) (a b : Value) : bool :=
  match toPrimitive a, toPrimitive b with
  | PText s, PText t => String.ltb t s
  | PText s, PNumber (Some y) => textAbove rt s y
  | PNumber (Some x), PText t => textBelow rt t x
  | PNumber (Some x), PNumber (Some y) => (y <? x)%Z
  | _, PNumber None => false
  | PNumber None, _ => false
  end.

(** [s.includes(needle)]. *)
Fixpoint includes (needle s : string) : bool :=
  String.prefix needle s ||
  match s with
  | EmptyString => false
  | String _ s' => includes needle s'
  end.

End JS.

Import JS.

(** The double-quote character and the line break of the template literals. *)
Definition dq : string := String (ascii_of_nat 34) EmptyString.
Definition nl : string := String (ascii_of_nat 10) EmptyString.

(** The tab character, and a run of them, for the statement of [Job.create]. *)
Definition tab : string := String (ascii_of_nat 9) EmptyString.

Fixpoint tabs (n : nat) : string :=
  match n with
  | O => EmptyString
  | S n' => tab ++ tabs n'
  end.

(* ================================================================== *)
(** ** Errors ([expressError]) *)
(* ================================================================== *)

(** The two error classes the sources import from [../expressError]. *)
Inductive ExpressError : Type :=
| BadRequestError (message : string)
| NotFoundError (message : string).

Inductive ErrorClass : Type := BadRequest | NotFound.

Definition classOf (e : ExpressError) : ErrorClass :=
  match e with
  | BadRequestError _ => BadRequest
  | NotFoundError _ => NotFound
  end.

(* ================================================================== *)
(** ** helpers/sql.js *)
(* ================================================================== *)

Record SetClause : Type := mkSetClause {
  setCols : string;
  values : list Value
}.

(** The callback of [keys.map]:
    [`"${jsToSql[colName] || colName}"=$${idx + 1}`]. *)
Definition column (jsToSql : Object) (colName : string) : string :=
  toString (JS.or (prop jsToSql colName) (VStr colName)).

Definition fragment (jsToSql : Object) (colName : string) (idx : nat) : string :=
  dq ++ column jsToSql colName ++ dq ++ "=$" ++ showNat (idx + 1).

Definition sqlForPartialUpdate (dataToUpdate jsToSql : Object)
  : ExpressError + SetClause :=
  let keys := JS.keys dataToUpdate in
  if (List.length keys =? 0)%nat then inl (BadRequestError "No data")
  else
    let cols := mapi (fragment jsToSql) keys in
    inr {| setCols := join ", " cols;
           values := JS.values dataToUpdate |}.


(* ================================================================== *)
(** ** The store interface ([db.query]) *)
(* ================================================================== *)

(** An [async] function is a tree: it settles, or it awaits one
    parameterized statement and, when the store answers, goes on with the
    rows returned.  None of the functions catches an error, so a statement
    the store fails ends the call there: [runFallible] below. *)
Inductive Async (A : Type) : Type :=
| Resolve (a : A)
| Reject (e : ExpressError)
| Await (sql : string) (params : list Value) (k : list Object -> Async A).

Arguments Resolve {A} a.
Arguments Reject {A} e.
Arguments Await {A} sql params k.

Fixpoint bind {A B : Type} (m : Async A) (f : A -> Async B) : Async B :=
  match m with
  | Resolve a => f a
  | Reject e => Reject e
  | Await sql params k => Await sql params (fun rows => bind (k rows) f)
  end.

(** [(await db.query(sql, params)).rows]. *)
Definition db_query (sql : string) (params : list Value) : Async (list Object) :=
  Await sql params Resolve.

Declare Scope async_scope.
Delimit Scope async_scope with async.
Notation "x <- m ;; k" := (bind m (fun x => k))
  (at level 61, m at next level, right associativity) : async_scope.
Local Open Scope async_scope.

Inductive Outcome (A : Type) : Type :=
| Fulfilled (a : A)
| Rejected (e : ExpressError).

Arguments Fulfilled {A} a.
Arguments Rejected {A} e.

(** One statement sent to the store: its text and its positional values. *)
Definition Statement : Type := (string * list Value)%type.

Section Run.

Variable Db : Type.
(** The store collaborator: [execute sqlText positionalValues] answers with
    rows and leaves the store in a new state. *)
Variable execute : string -> list Value -> Db -> list Object * Db.

(** Running a call against a store that answers every statement: the
    outcome, the store afterwards and the statements executed, oldest
    first. *)
Fixpoint run {A : Type} (p : Async A) (db : Db)
  : Outcome A * Db * list Statement :=
  match p with
  | Resolve a => (Fulfilled a, db, [])
  | Reject e => (Rejected e, db, [])
  | Await sql params k =>
      let '(rows, db1) := execute sql params db in
      let '(out, db2, log) := run (k rows) db1 in
      (out, db2, (sql, params) :: log)
  end.

End Run.

Arguments run {Db} execute {A} p db.

(** [db.query] can also fail: the store refuses the statement (a missing
    table, a violated constraint) or cannot be reached, and the awaited
    promise rejects with the store's error.  No function of the models
    catches anything, so that error ends the call. *)
Inductive Failure : Type :=
| Thrown (e : ExpressError)
| StoreFailure (message : string).

Section RunFallible.

Variable Db : Type.
(** A store that either fails a statement with a message or answers it with
    rows. *)
Variable execute : string -> list Value -> Db -> (string + list Object) * Db.

(** Running a call against such a store: the failure or the result, the
    store afterwards and the statements executed, oldest first. *)
Fixpoint runFallible {A : Type} (p : Async A) (db : Db)
  : (Failure + A) * Db * list Statement :=
  match p with
  | Resolve a => (inr a, db, [])
  | Reject e => (inl (Thrown e), db, [])
  | Await sql params k =>
      match execute sql params db with
      | (inl message, db1) => (inl (StoreFailure message), db1, [(sql, params)])
      | (inr rows, db1) =>
          let '(out, db2, log) := runFallible (k rows) db1 in
          (out, db2, (sql, params) :: log)
      end
  end.

End RunFallible.

Arguments runFallible {Db} execute {A} p db.

(** A store that always answers, seen as one that may fail. *)
Definition answering {Db : Type}
  (execute : string -> list Value -> Db -> list Object * Db)
  (sql : string) (params : list Value) (db : Db)
  : (string + list Object) * Db :=
  let '(rows, db1) := execute sql params db in (inr rows, db1).

(** The accumulators of the two [findAll]: [whereValues] and [queryValues]. *)
Record Filters : Type := mkFilters {
  whereValues : list string;
  queryValues : list Value
}.

(** The idiom of every bound filter:
    [queryValues.push(v); whereValues.push(`<pred> $${queryValues.length}`)]. *)
Definition pushFilter (v : Value) (pred : string) (st : Filters) : Filters :=
  let queryValues := push (queryValues st) v in
  let whereValues :=
    push (whereValues st) (pred ++ "$" ++ showNat (List.length queryValues)) in
  {| whereValues := whereValues; queryValues := queryValues |}.

(** [if (whereValues.length > 0) query += " WHERE " + whereValues.join(" AND ")]. *)
Definition addWhere (query : string) (whereValues : list string) : string :=
  if (0 <? List.length whereValues)%nat
  then query ++ " WHERE " ++ join " AND " whereValues
  else query.

(* ================================================================== *)
(** ** Records returned with nested data *)
(* ================================================================== *)

(** What a property of a record returned by [get] holds: a primitive, a
    row, or the array of rows of a second query. *)
Inductive Field : Type :=
| FValue (v : Value)
| FObject (o : Object)
| FArray (rows : list Object).

Definition Entity : Type := list (string * Field).

(** A row of the store seen as such a record. *)
Definition ofRow (row : Object) : Entity :=
  map (fun kv => (fst kv, FValue (snd kv))) row.

(** [o[k]] on a record: the own property, else what [Object.prototype] has
    under that name, else [undefined]. *)
Definition field (o : Entity) (k : string) : Field :=
  match assoc o k with
  | Some f => f
  | None =>
      match inherited k with
      | Some printed => FValue (VBuiltin printed)
      | None => FValue VUndefined
      end
  end.

(** [o.k = f]: an existing property keeps its place, a new one goes last. *)
Fixpoint assignProp (o : Entity) (k : string) (f : Field) : Entity :=
  match o with
  | [] => [(k, f)]
  | (k', f') :: o' =>
      if String.eqb k' k then (k', f) :: o' else (k', f') :: assignProp o' k f
  end.

(** [delete o.k]. *)
Definition deleteProp (o : Entity) (k : string) : Entity :=
  filter (fun kf => negb (String.eqb (fst kf) k)) o.

(* ================================================================== *)
(** ** models/company.js *)
(* ================================================================== *)

Module Company.

Definition duplicateCheckSql : string :=
  "SELECT handle" ++ nl ++
  "           FROM companies" ++ nl ++
  "           WHERE handle = $1".

Definition insertSql : string :=
  "INSERT INTO companies" ++ nl ++
  "           (handle, name, description, num_employees, logo_url)" ++ nl ++
  "           VALUES ($1, $2, $3, $4, $5)" ++ nl ++
  "           RETURNING handle, name, description, num_employees AS "
    ++ dq ++ "numEmployees" ++ dq ++ ", logo_url AS " ++ dq ++ "logoUrl" ++ dq.

Definition create (data : Object) : Async (option Object) :=
  let handle := prop data "handle" in
  let name := prop data "name" in
  let description := prop data "description" in
  let numEmployees := prop data "numEmployees" in
  let logoUrl := prop data "logoUrl" in
  duplicateCheck <- db_query duplicateCheckSql [handle] ;;
  match first duplicateCheck with
  | Some _ =>
      Reject (BadRequestError ("Duplicate company: " ++ toString handle))
  | None =>
      result <- db_query insertSql
                  [handle; name; description; numEmployees; logoUrl] ;;
      let company := first result in
      Resolve company
  end.

Definition selectSql : string :=
  "SELECT handle," ++ nl ++
  "                        name," ++ nl ++
  "                        description," ++ nl ++
  "                        num_employees AS " ++ dq ++ "numEmployees" ++ dq ++ "," ++ nl ++
  "                        logo_url AS " ++ dq ++ "logoUrl" ++ dq ++ nl ++
  "                 FROM companies".

(** Lines 80-93: the three filters, in source order. *)
Definition filters (searchFilters : Object) : Filters :=
  let name := prop searchFilters "name" in
  let minEmployees := prop searchFilters "minEmployees" in
  let maxEmployees := prop searchFilters "maxEmployees" in
  let st := {| whereValues := []; queryValues := [] |} in
  let st :=
    if truthy name
    then pushFilter (VStr ("%" ++ toString name ++ "%")) "name ILIKE " st
    else st in
  let st :=
    if truthy minEmployees
    then pushFilter minEmployees "num_employees >= " st
    else st in
  let st :=
    if truthy maxEmployees
    then pushFilter maxEmployees "num_employees <= " st
    else st in
  st.

(** The text handed to [db.query] by [findAll]. *)
Definition findAllSql (searchFilters : Object) : string :=
  let query := selectSql in
  let query := addWhere query (whereValues (filters searchFilters)) in
  query ++ " ORDER BY name".

Definition findAll (rt : Runtime) (searchFilters : Object)
  : Async (list Object) :=
  let minEmployees := prop searchFilters "minEmployees" in
  let maxEmployees := prop searchFilters "maxEmployees" in
  if gt rt minEmployees maxEmployees
  then Reject (BadRequestError
                 "Min employees cannot be greater than the Max employees")
  else
    companiesRes <- db_query (findAllSql searchFilters)
                      (queryValues (filters searchFilters)) ;;
    Resolve companiesRes.

Definition jsToSql : Object :=
  [("numEmployees", VStr "num_employees"); ("logoUrl", VStr "logo_url")].

Definition updateSql (setCols handleVarIdx : string) : string :=
  "UPDATE companies " ++ nl ++
  "                      SET " ++ setCols ++ " " ++ nl ++
  "                      WHERE handle = " ++ handleVarIdx ++ " " ++ nl ++
  "                      RETURNING handle, " ++ nl ++
  "                                name, " ++ nl ++
  "                                description, " ++ nl ++
  "                                num_employees AS " ++ dq ++ "numEmployees" ++ dq ++ ", " ++ nl ++
  "                                logo_url AS " ++ dq ++ "logoUrl" ++ dq.

Definition update (handle : Value) (data : Object) : Async Object :=
  match sqlForPartialUpdate data jsToSql with
  | inl err => Reject err
  | inr sc =>
      let handleVarIdx := "$" ++ showNat (List.length (values sc) + 1) in
      let querySql := updateSql (setCols sc) handleVarIdx in
      result <- db_query querySql (values sc ++ [handle])%list ;;
      match first result with
      | None => Reject (NotFoundError ("No company: " ++ toString handle))
      | Some company => Resolve company
      end
  end.

Definition getSql : string :=
  "SELECT handle," ++ nl ++
  "                  name," ++ nl ++
  "                  description," ++ nl ++
  "                  num_employees AS " ++ dq ++ "numEmployees" ++ dq ++ "," ++ nl ++
  "                  logo_url AS " ++ dq ++ "logoUrl" ++ dq ++ nl ++
  "           FROM companies" ++ nl ++
  "           WHERE handle = $1".

Definition getJobsSql : string :=
  nl ++
  "          SELECT id, title, salary, equity" ++ nl ++
  "          FROM jobs" ++ nl ++
  "          WHERE company_handle = $1" ++ nl ++
  "          ORDER BY id".

Definition get (handle : Value) : Async Entity :=
  companyRes <- db_query getSql [handle] ;;
  match first companyRes with
  | None => Reject (NotFoundError ("No company: " ++ toString handle))
  | Some company =>
      jobRes <- db_query getJobsSql [handle] ;;
      let company := assignProp (ofRow company) "jobs" (FArray jobRes) in
      Resolve company
  end.

Definition removeSql : string :=
  "DELETE" ++ nl ++
  "           FROM companies" ++ nl ++
  "           WHERE handle = $1" ++ nl ++
  "           RETURNING handle".

Definition remove (handle : Value) : Async unit :=
  result <- db_query removeSql [handle] ;;
  match first result with
  | None => Reject (NotFoundError ("No company: " ++ toString handle))
  | Some company => Resolve tt
  end.

End Company.

(* ================================================================== *)
(** ** models/job.js *)
(* ================================================================== *)

Module Job.

Definition createSql : string :=
  nl ++
  "        INSERT INTO jobs (title," ++ nl ++
  "        " ++ tabs 9 ++ "salary," ++ nl ++
  tabs 13 ++ "equity," ++ nl ++
  tabs 13 ++ "company_handle)" ++ nl ++
  tabs 4 ++ "VALUES" ++ tab ++ "($1, $2, $3, $4)" ++ nl ++
  "        RETURNING id, title, salary, equity, company_handle AS "
    ++ dq ++ "companyHandle" ++ dq.

Definition create (data : Object) : Async (option Object) :=
  result <- db_query createSql
              [prop data "title"; prop data "salary"; prop data "equity";
               prop data "companyHandle"] ;;
  let job := first result in
  Resolve job.

Definition selectSql : string :=
  "SELECT j.id," ++ nl ++
  "                        j.title," ++ nl ++
  "                        j.salary," ++ nl ++
  "                        j.equity," ++ nl ++
  "                        j.company_handle AS " ++ dq ++ "companyHandle" ++ dq ++ "," ++ nl ++
  "                        c.name AS " ++ dq ++ "companyName" ++ dq ++ nl ++
  "                 FROM jobs AS j" ++ nl ++
  "                    LEFT JOIN companies as c on c.handle = j.company_handle".

(** Lines 59-71: the three filters, in source order. *)
Definition filters (searchFilters : Object) : Filters :=
  let title := prop searchFilters "title" in
  let minSalary := prop searchFilters "minSalary" in
  let hasEquity := prop searchFilters "hasEquity" in
  let st := {| whereValues := []; queryValues := [] |} in
  let st :=
    if truthy title
    then pushFilter (VStr ("%" ++ toString title ++ "%")) "title ILIKE " st
    else st in
  let st :=
    if truthy minSalary
    then pushFilter minSalary "salary >= " st
    else st in
  let st :=
    if isTrue hasEquity
    then {| whereValues := push (whereValues st) "equity > 0";
            queryValues := queryValues st |}
    else st in
  st.

Definition findAllSql (searchFilters : Object) : string :=
  let query := selectSql in
  let query := addWhere query (whereValues (filters searchFilters)) in
  query ++ " ORDER BY title".

Definition findAll (searchFilters : Object) : Async (list Object) :=
  jobsRes <- db_query (findAllSql searchFilters)
               (queryValues (filters searchFilters)) ;;
  Resolve jobsRes.

Definition jsToSql : Object := [].

Definition updateSql (setCols idVarIdx : string) : string :=
  "UPDATE jobs " ++ nl ++
  "                      SET " ++ setCols ++ " " ++ nl ++
  "                      WHERE id = " ++ idVarIdx ++ " " ++ nl ++
  "                      RETURNING id, " ++ nl ++
  "                                title, " ++ nl ++
  "                                salary, " ++ nl ++
  "                                equity, " ++ nl ++
  "                                company_handle AS " ++ dq ++ "companyHandle" ++ dq.

Definition update (id : Value) (data : Object) : Async Object :=
  match sqlForPartialUpdate data jsToSql with
  | inl err => Reject err
  | inr sc =>
      let idVarIdx := "$" ++ showNat (List.length (values sc) + 1) in
      let querySql := updateSql (setCols sc) idVarIdx in
      result <- db_query querySql (values sc ++ [id])%list ;;
      match first result with
      | None => Reject (NotFoundError ("No job: " ++ toString id))
      | Some job => Resolve job
      end
  end.

Definition getSql : string :=
  "SELECT id," ++ nl ++
  "                  title," ++ nl ++
  "                  salary," ++ nl ++
  "                  equity," ++ nl ++
  "                  company_handle AS " ++ dq ++ "companyHandle" ++ dq ++ nl ++
  "          FROM jobs" ++ nl ++
  "          WHERE id = $1".

Definition getCompanySql : string :=
  "SELECT handle," ++ nl ++
  "              name," ++ nl ++
  "              description," ++ nl ++
  "              num_employees AS " ++ dq ++ "numEmployees" ++ dq ++ "," ++ nl ++
  "              logo_url AS " ++ dq ++ "logoUrl" ++ dq ++ nl ++
  "      FROM companies" ++ nl ++
  "      WHERE handle = $1".

Definition get (id : Value) : Async Entity :=
  jobRes <- db_query getSql [id] ;;
  match first jobRes with
  | None => Reject (NotFoundError ("No job: " ++ toString id))
  | Some job =>
      companyRes <- db_query getCompanySql [prop job "companyHandle"] ;;
      let job := deleteProp (ofRow job) "companyHandle" in
      let job :=
        assignProp job "company"
          match first companyRes with
          | Some company => FObject company
          | None => FValue VUndefined
          end in
      Resolve job
  end.

Definition removeSql : string :=
  "DELETE" ++ nl ++
  "           FROM jobs" ++ nl ++
  "           WHERE id = $1" ++ nl ++
  "           RETURNING id".

Definition remove (id : Value) : Async unit :=
  result <- db_query removeSql [id] ;;
  match first result with
  | None => Reject (NotFoundError ("No job: " ++ toString id))
  | Some job => Resolve tt
  end.

End Job.

(* ================================================================== *)
(** ** An in-memory store *)
(* ================================================================== *)

(** A stand-in for the store on which the models can be run on concrete
    inputs: the [companies] table as a list of rows keyed by column name,
    answering the two statements of [Company.create]. *)
Module MemDb.

Definition Db : Type := list Object.

Definition valueEqb (a b : Value) : bool :=
  match a, b with
  | VBool x, VBool y => Bool.eqb x y
  | VNum x, VNum y => (x =? y)%Z
  | VStr x, VStr y => (x =? y)
  | VBuiltin x, VBuiltin y => (x =? y)
  | _, _ => false
  end.

Definition param (params : list Value) (i : nat) : Value :=
  nth i params VNull.

Definition execute (sql : string) (params : list Value) (db : Db)
  : list Object * Db :=
  if sql =? Company.duplicateCheckSql then
    let hit := fun row => valueEqb (prop row "handle") (param params 0) in
    (map (fun row => [("handle", prop row "handle")]) (filter hit db), db)
  else if sql =? Company.insertSql then
    let row := [("handle", param params 0);
                ("name", param params 1);
                ("description", param params 2);
                ("num_employees", param params 3);
                ("logo_url", param params 4)] in
    ([[("handle", param params 0);
       ("name", param params 1);
       ("description", param params 2);
       ("numEmployees", param params 3);
       ("logoUrl", param params 4)]],
     (db ++ [row])%list)
  else ([], db).

(** A store that answers every statement with the same rows. *)
Definition canned (rows : list Object) (sql : string) (params : list Value)
  (db : unit) : list Object * unit := (rows, db).

(** A store that answers each statement text with the rows listed for it,
    and with no row for a text that is not listed. *)
Fixpoint scripted (table : list (string * list Object)) (sql : string)
  (params : list Value) (db : unit) : list Object * unit :=
  match table with
  | [] => ([], db)
  | (text, rows) :: table' =>
      if text =? sql then (rows, db) else scripted table' sql params db
  end.

(** A store that fails every statement with the same message. *)
Definition failing (message : string) (sql : string) (params : list Value)
  (db : unit) : (string + list Object) * unit := (inl message, db).

End MemDb.

(* ================================================================== *)
(** ** Vocabulary of the statements *)
(* ================================================================== *)

(** A candidate filter: the value tested by the [if], the value bound when
    the test passes, and the predicate text up to its placeholder. *)
Record Candidate : Type := mkCandidate {
  given : Value;
  bound : Value;
  predicate : string
}.

(** The filters whose test passes, with the predicate and position each one
    gets: the n-th of them (from 0) is bound at position n+1. *)
Definition present (cs : list Candidate) : list Candidate :=
  filter (fun c => truthy (given c)) cs.

Definition predicates (cs : list Candidate) : list string :=
  mapi (fun c n => predicate c ++ "$" ++ showNat (n + 1)) cs.

Definition companyCandidates (searchFilters : Object) : list Candidate :=
  let name := prop searchFilters "name" in
  let minEmployees := prop searchFilters "minEmployees" in
  let maxEmployees := prop searchFilters "maxEmployees" in
  [ mkCandidate name (VStr ("%" ++ toString name ++ "%")) "name ILIKE ";
    mkCandidate minEmployees minEmployees "num_employees >= ";
    mkCandidate maxEmployees maxEmployees "num_employees <= " ].

Definition jobCandidates (searchFilters : Object) : list Candidate :=
  let title := prop searchFilters "title" in
  let minSalary := prop searchFilters "minSalary" in
  [ mkCandidate title (VStr ("%" ++ toString title ++ "%")) "title ILIKE ";
    mkCandidate minSalary minSalary "salary >= " ].

Ltac by_truthiness vs :=
  match vs with
  | (?v, ?rest) => destruct (truthy v); by_truthiness rest
  | tt => idtac
  end.

(** The continuation of both updates: the first returned row, or the
    not-found error naming the key. *)
Definition orNotFound (what : string) (key : Value) (result : list Object)
  : Async Object :=
  match first result with
  | None => Reject (NotFoundError (what ++ toString key))
  | Some row => Resolve row
  end.



(** A company as [create] receives it, and as the table stores it. *)
Definition c1 : Object :=
  [("handle", VStr "c1"); ("name", VStr "C1"); ("description", VStr "Desc1");
   ("numEmployees", VNum 1); ("logoUrl", VStr "http://c1.img")].

Definition c1Row : Object :=
  [("handle", VStr "c1"); ("name", VStr "C1"); ("description", VStr "Desc1");
   ("num_employees", VNum 1); ("logo_url", VStr "http://c1.img")].

(** A runtime for the inputs in which no text is compared with a number:
    it then plays no part. *)
Definition plainRuntime : Runtime :=
  {| textAbove := fun _ _ => false; textBelow := fun _ _ => false |}.

(** One awaited statement of a run, answered as [Hex] says. *)
Ltac step_query Hex :=
  unfold db_query; cbn [bind run first nth_error]; rewrite Hex;
  cbn [bind run first nth_error].

(** The number of occurrences of a character in a text; with [$] it counts
    the placeholders of a statement whose other text has none. *)
Fixpoint countChar (c : ascii) (s : string) : nat :=
  match s with
  | EmptyString => 0
  | String c' s' => (if Ascii.eqb c' c then 1 else 0) + countChar c s'
  end.

(** [rows[0]] stored as a property: the row, or [undefined]. *)
Definition firstField (rows : list Object) : Field :=
  match first rows with
  | Some row => FObject row
  | None => FValue VUndefined
  end.

(** A job row and a jobs listing, as the store returns them. *)
Definition j1Row : Object :=
  [("id", VNum 1); ("title", VStr "J1"); ("salary", VNum 1);
   ("equity", VStr "0.1"); ("companyHandle", VStr "c1")].

Definition c1Jobs : list Object :=
  [[("id", VNum 1); ("title", VStr "J1"); ("salary", VNum 1);
    ("equity", VStr "0.1")]].

(* ================================================================== *)
(** ** Auxiliary facts *)
(* ================================================================== *)

Section ListFacts.

Context {A B : Type}.
Variable f : A -> nat -> B.

Lemma length_mapiFrom (l : list A) :
  forall i, List.length (mapiFrom f i l) = List.length l.
Proof.
  induction l as [|x l IH]; intro i; simpl; [reflexivity|].
  now rewrite IH.
Qed.

Lemma nth_error_mapiFrom (l : list A) :
  forall i n,
    nth_error (mapiFrom f i l) n
    = option_map (fun x => f x (i + n)) (nth_error l n).
Proof.
  induction l as [|x l IH]; intros i n.
  - now destruct n.
  - destruct n as [|n]; simpl.
    + now rewrite Nat.add_0_r.
    + rewrite IH. now rewrite Nat.add_succ_r.
Qed.

Lemma nth_error_mapi (l : list A) (n : nat) :
  nth_error (mapi f l) n = option_map (fun x => f x n) (nth_error l n).
Proof. unfold mapi. now rewrite nth_error_mapiFrom. Qed.

Lemma length_mapi (l : list A) : List.length (mapi f l) = List.length l.
Proof. apply length_mapiFrom. Qed.

End ListFacts.


Lemma keys_length (o : Object) : List.length (keys o) = List.length o.
Proof. apply length_map. Qed.

Lemma values_length (o : Object) : List.length (JS.values o) = List.length o.
Proof. apply length_map. Qed.

Lemma nth_error_keys (o : Object) (i : nat) (k : string) (v : Value) :
  nth_error o i = Some (k, v) -> nth_error (keys o) i = Some k.
Proof. intro H. unfold keys. now rewrite nth_error_map, H. Qed.

Lemma nth_error_values (o : Object) (i : nat) (k : string) (v : Value) :
  nth_error o i = Some (k, v) -> nth_error (JS.values o) i = Some v.
Proof. intro H. unfold JS.values. now rewrite nth_error_map, H. Qed.

(** What the builder returns on a mapping with at least one entry. *)
Lemma sqlForPartialUpdate_nonempty (dataToUpdate jsToSql : Object) :
  dataToUpdate <> [] ->
  sqlForPartialUpdate dataToUpdate jsToSql
  = inr {| setCols := join ", " (mapi (fragment jsToSql) (keys dataToUpdate));
           values := JS.values dataToUpdate |}.
Proof.
  intro Hne. unfold sqlForPartialUpdate.
  destruct dataToUpdate as [|kv rest]; [contradiction|reflexivity].
Qed.

Lemma column_falsy (jsToSql : Object) (colName : string) :
  truthy (prop jsToSql colName) = false -> column jsToSql colName = colName.
Proof. intro H. unfold column, JS.or. now rewrite H. Qed.

(* ================================================================== *)
(** ** The partial-update builder *)
(* ================================================================== *)

(** The example of the docstring. *)
Example sqlForPartialUpdate_docstring :
  sqlForPartialUpdate
    [("firstName", VStr "Aliya"); ("age", VNum 32)]
    [("firstName", VStr "first_name"); ("age", VStr "age")]
  = inr {| setCols := dq ++ "first_name" ++ dq ++ "=$1, " ++ dq ++ "age" ++ dq ++ "=$2";
           values := [VStr "Aliya"; VNum 32] |}.
Proof. reflexivity. Qed.

(** A key that names a member of [Object.prototype] and has no entry of its
    own in the column map resolves to that member: the column is the text
    the member prints as. *)
Example sqlForPartialUpdate_inherited_key :
  sqlForPartialUpdate [("constructor", VStr "x")] []
  = inr {| setCols := dq ++ "function Object() { [native code] }" ++ dq ++ "=$1";
           values := [VStr "x"] |} /\
  sqlForPartialUpdate [("constructor", VStr "x")]
                      [("constructor", VStr "ctor")]
  = inr {| setCols := dq ++ "ctor" ++ dq ++ "=$1"; values := [VStr "x"] |}.
Proof. split; reflexivity. Qed.

Lemma column_cases (jsToSql : Object) (colName : string) :
  column jsToSql colName
  = match ownProp jsToSql colName with
    | Some mapped => if truthy mapped then toString mapped else colName
    | None =>
        match inherited colName with
        | Some printed => printed
        | None => colName
        end
    end.
Proof.
  unfold column, JS.or, prop.
  destruct (ownProp jsToSql colName) as [mapped|].
  - now destruct (truthy mapped).
  - now destruct (inherited colName).
Qed.

(** C1. On a non-empty update mapping, [sqlForPartialUpdate] returns the
    fragments joined by a comma and a space, one fragment per key in
    enumeration order; the fragment of the i-th key (counting from 0) is
    its quoted column followed by [=$] and the position i+1, and the i-th
    entry of the returned values is that key's value.  The column is the
    text of the map's own entry for the key when that entry is truthy, the
    key itself when the entry is falsy; without an own entry it is what
    [Object.prototype] has under the key's name, and else the key. *)
Theorem sqlForPartialUpdate_positions (dataToUpdate jsToSql : Object) :
  dataToUpdate <> [] ->
  exists cols : list string,
    sqlForPartialUpdate dataToUpdate jsToSql
    = inr {| setCols := join ", " cols; values := JS.values dataToUpdate |} /\
    List.length cols = List.length dataToUpdate /\
    List.length (JS.values dataToUpdate) = List.length dataToUpdate /\
    forall (i : nat) (k : string) (v : Value),
      nth_error dataToUpdate i = Some (k, v) ->
      nth_error cols i
      = Some (dq ++ column jsToSql k ++ dq ++ "=$" ++ showNat (i + 1)) /\
      nth_error (JS.values dataToUpdate) i = Some v /\
      column jsToSql k
      = match ownProp jsToSql k with
        | Some mapped => if truthy mapped then toString mapped else k
        | None =>
            match inherited k with
            | Some printed => printed
            | None => k
            end
        end.
Proof.
  intro Hne.
  exists (mapi (fragment jsToSql) (keys dataToUpdate)).
  split; [now apply sqlForPartialUpdate_nonempty|].
  split; [now rewrite length_mapi, keys_length|].
  split; [apply values_length|].
  intros i k v Hi. split; [|split].
  - rewrite nth_error_mapi, (nth_error_keys _ _ _ _ Hi). reflexivity.
  - eapply nth_error_values; eassumption.
  - apply column_cases.
Qed.

Lemma sqlForPartialUpdate_positions_witness :
  sqlForPartialUpdate [("firstName", VStr "Aliya"); ("age", VNum 32)]
                      [("firstName", VStr "first_name")]
  = inr {| setCols := dq ++ "first_name" ++ dq ++ "=$1, "
                      ++ dq ++ "age" ++ dq ++ "=$2";
           values := [VStr "Aliya"; VNum 32] |}.
Proof.
  destruct (sqlForPartialUpdate_positions
              [("firstName", VStr "Aliya"); ("age", VNum 32)]
              [("firstName", VStr "first_name")])
    as (cols & Heq & Hlen & _ & Hnth); [discriminate|].
  destruct (Hnth 0 "firstName" (VStr "Aliya") eq_refl) as (H0 & _).
  destruct (Hnth 1 "age" (VNum 32) eq_refl) as (H1 & _).
  destruct cols as [|c0 [|c1 [|c2 cols]]]; try discriminate Hlen.
  cbn [nth_error] in H0, H1.
  injection H0 as ->. injection H1 as ->.
  exact Heq.
Defined.

(** C4. Whatever the column map, an update mapping with no entry is
    rejected with the bad-request error; [Company.update] and [Job.update]
    then reject with it without awaiting the store, so a run executes no
    statement and leaves the store as it was. *)
Theorem sqlForPartialUpdate_empty (jsToSql : Object) :
  sqlForPartialUpdate [] jsToSql = inl (BadRequestError "No data") /\
  (forall handle, Company.update handle [] = Reject (BadRequestError "No data")) /\
  (forall id, Job.update id [] = Reject (BadRequestError "No data")) /\
  (forall (Db : Type) execute (db : Db) key,
      run execute (Company.update key []) db
      = (Rejected (BadRequestError "No data"), db, []) /\
      run execute (Job.update key []) db
      = (Rejected (BadRequestError "No data"), db, [])).
Proof. repeat split. Qed.

(** C10. A key for which [jsToSql[key]] is falsy (an own entry that is the
    empty string, 0, NaN, null, false or undefined, or no entry at all under
    a name [Object.prototype] does not have either) is emitted under its own
    name: the fragment at its index is the quoted key followed by [=$] and
    the position, so the column is not the empty string unless the key
    itself is. *)
Theorem sqlForPartialUpdate_falsy_fallback
  (dataToUpdate jsToSql : Object) (i : nat) (k : string) (v : Value) :
  nth_error dataToUpdate i = Some (k, v) ->
  truthy (prop jsToSql k) = false ->
  exists cols : list string,
    sqlForPartialUpdate dataToUpdate jsToSql
    = inr {| setCols := join ", " cols; values := JS.values dataToUpdate |} /\
    nth_error cols i = Some (dq ++ k ++ dq ++ "=$" ++ showNat (i + 1)) /\
    column jsToSql k = k /\
    (k <> EmptyString -> column jsToSql k <> EmptyString).
Proof.
  intros Hi Hfalsy.
  assert (Hne : dataToUpdate <> []) by (intro E; subst; now destruct i).
  pose proof (column_falsy jsToSql k Hfalsy) as Hcol.
  exists (mapi (fragment jsToSql) (keys dataToUpdate)).
  split; [now apply sqlForPartialUpdate_nonempty|].
  split; [|split].
  - rewrite nth_error_mapi, (nth_error_keys _ _ _ _ Hi). simpl.
    unfold fragment. now rewrite Hcol.
  - exact Hcol.
  - now rewrite Hcol.
Qed.

Lemma sqlForPartialUpdate_falsy_fallback_witness :
  prop [("logoUrl", VStr EmptyString)] "logoUrl" = VStr EmptyString /\
  exists cols : list string,
    sqlForPartialUpdate [("name", VStr "New"); ("logoUrl", VNull)]
                        [("logoUrl", VStr EmptyString)]
    = inr {| setCols := join ", " cols; values := [VStr "New"; VNull] |} /\
    nth_error cols 1 = Some (dq ++ "logoUrl" ++ dq ++ "=$2") /\
    column [("logoUrl", VStr EmptyString)] "logoUrl" <> EmptyString.
Proof.
  split; [reflexivity|].
  destruct (sqlForPartialUpdate_falsy_fallback
              [("name", VStr "New"); ("logoUrl", VNull)]
              [("logoUrl", VStr EmptyString)] 1 "logoUrl" VNull eq_refl eq_refl)
    as (cols & Heq & Hnth & _ & Hnonempty).
  exists cols. split; [exact Heq|]. split; [exact Hnth|].
  apply Hnonempty. discriminate.
Defined.

(* ================================================================== *)
(** ** The search filters *)
(* ================================================================== *)

Example showNat_12 : showNat 12 = "12".
Proof. reflexivity. Qed.

Example toString_negative : toString (VNum (-5)) = "-5".
Proof. reflexivity. Qed.

Example gt_strings (rt : Runtime) :
  gt rt (VStr "10") (VStr "9") = false /\ gt rt (VStr "9") (VStr "10") = true.
Proof. split; reflexivity. Qed.

Example prop_inherited :
  prop [] "constructor" = VBuiltin "function Object() { [native code] }" /\
  prop [("constructor", VStr EmptyString)] "constructor" = VStr EmptyString /\
  prop [] "name" = VUndefined.
Proof. repeat split. Qed.

Lemma gt_numbers (rt : Runtime) (a b : Z) :
  gt rt (VNum a) (VNum b) = (b <? a)%Z.
Proof. reflexivity. Qed.

Lemma isTrue_iff (v : Value) : isTrue v = true <-> v = VBool true.
Proof.
  split.
  - destruct v as [| |[|]| | | |]; simpl; intro H; try discriminate; reflexivity.
  - intros ->. reflexivity.
Qed.

Lemma company_filters_present (searchFilters : Object) :
  Company.filters searchFilters
  = {| whereValues := predicates (present (companyCandidates searchFilters));
       queryValues := map bound (present (companyCandidates searchFilters)) |}.
Proof.
  unfold Company.filters, companyCandidates, present, predicates; simpl.
  by_truthiness (prop searchFilters "name",
                 (prop searchFilters "minEmployees",
                  (prop searchFilters "maxEmployees", tt)));
    reflexivity.
Qed.

Lemma job_filters_present (searchFilters : Object) :
  Job.filters searchFilters
  = {| whereValues :=
         (predicates (present (jobCandidates searchFilters))
          ++ (if isTrue (prop searchFilters "hasEquity")
              then ["equity > 0"] else []))%list;
       queryValues := map bound (present (jobCandidates searchFilters)) |}.
Proof.
  unfold Job.filters, jobCandidates, present, predicates; simpl.
  by_truthiness (prop searchFilters "title",
                 (prop searchFilters "minSalary", tt));
    destruct (isTrue (prop searchFilters "hasEquity")); reflexivity.
Qed.

(** C2.  The presence test of the bound filters is a truthiness test, so a
    filter that is defined but falsy is dropped: [maxEmployees: 0] produces
    neither predicate nor value and [Company.findAll] sends the unfiltered
    statement, although the range check of the same function takes that 0
    as a bound and rejects [minEmployees: 5] against it.  The same holds of
    [minEmployees: 0], of an empty [name], and of [minSalary: 0] and an
    empty [title] for jobs. *)
Theorem filters_defined_but_falsy :
  prop [("maxEmployees", VNum 0)] "maxEmployees" <> VUndefined /\
  Company.filters [("maxEmployees", VNum 0)]
  = {| whereValues := []; queryValues := [] |} /\
  Company.findAll plainRuntime [("maxEmployees", VNum 0)]
  = Await (Company.selectSql ++ " ORDER BY name") [] Resolve /\
  Company.findAll plainRuntime
    [("minEmployees", VNum 5); ("maxEmployees", VNum 0)]
  = Reject (BadRequestError
              "Min employees cannot be greater than the Max employees") /\
  Company.filters [("minEmployees", VNum 5); ("maxEmployees", VNum 3)]
  = {| whereValues := ["num_employees >= $1"; "num_employees <= $2"];
       queryValues := [VNum 5; VNum 3] |} /\
  Company.filters [("minEmployees", VNum 0)]
  = {| whereValues := []; queryValues := [] |} /\
  Company.filters [("name", VStr EmptyString)]
  = {| whereValues := []; queryValues := [] |} /\
  Job.filters [("title", VStr EmptyString); ("minSalary", VNum 0)]
  = {| whereValues := []; queryValues := [] |}.
Proof. repeat split; discriminate. Qed.

Lemma join_nonempty (sep x : string) (l : list string) :
  x <> EmptyString -> join sep (x :: l) <> EmptyString.
Proof.
  intro Hx. destruct x as [|c x]; [contradiction|].
  destruct l; simpl; discriminate.
Qed.

Lemma company_predicates_nonempty (searchFilters : Object) :
  Forall (fun p => p <> EmptyString) (whereValues (Company.filters searchFilters)).
Proof.
  rewrite company_filters_present.
  unfold companyCandidates, present, predicates; simpl.
  by_truthiness (prop searchFilters "name",
                 (prop searchFilters "minEmployees",
                  (prop searchFilters "maxEmployees", tt)));
    simpl; repeat constructor; discriminate.
Qed.

Lemma job_predicates_nonempty (searchFilters : Object) :
  Forall (fun p => p <> EmptyString) (whereValues (Job.filters searchFilters)).
Proof.
  rewrite job_filters_present.
  unfold jobCandidates, present, predicates; simpl.
  by_truthiness (prop searchFilters "title",
                 (prop searchFilters "minSalary", tt));
    destruct (isTrue (prop searchFilters "hasEquity"));
    simpl; repeat constructor; discriminate.
Qed.

Lemma addWhere_cases (query : string) (ws : list string) :
  Forall (fun p => p <> EmptyString) ws ->
  (ws = [] /\ addWhere query ws = query) \/
  (exists p, p <> EmptyString /\ p = join " AND " ws /\
             addWhere query ws = query ++ " WHERE " ++ p).
Proof.
  intro Hall. destruct ws as [|w ws].
  - left. split; reflexivity.
  - right. exists (join " AND " (w :: ws)).
    split; [|split; reflexivity].
    apply join_nonempty. now inversion Hall.
Qed.

(** C5. When no predicate is generated, the text [findAll] assembles for
    companies and for jobs does not contain the word WHERE; and whenever the
    text does get a WHERE, it is followed by predicate text that is not
    empty.  The text is the one [findAll] awaits the store with. *)
Theorem findAll_no_bare_where (searchFilters : Object) :
  (whereValues (Company.filters searchFilters) = [] ->
   includes "WHERE" (Company.findAllSql searchFilters) = false) /\
  (whereValues (Job.filters searchFilters) = [] ->
   includes "WHERE" (Job.findAllSql searchFilters) = false) /\
  (whereValues (Company.filters searchFilters) <> [] ->
   exists p, p <> EmptyString /\
     Company.findAllSql searchFilters
     = (Company.selectSql ++ " WHERE " ++ p) ++ " ORDER BY name") /\
  (whereValues (Job.filters searchFilters) <> [] ->
   exists p, p <> EmptyString /\
     Job.findAllSql searchFilters
     = (Job.selectSql ++ " WHERE " ++ p) ++ " ORDER BY title") /\
  (forall rt sql params k,
      Company.findAll rt searchFilters = Await sql params k ->
      sql = Company.findAllSql searchFilters) /\
  (forall sql params k,
      Job.findAll searchFilters = Await sql params k ->
      sql = Job.findAllSql searchFilters).
Proof.
  split; [|split; [|split; [|split; [|split]]]].
  - intro H. unfold Company.findAllSql. rewrite H. reflexivity.
  - intro H. unfold Job.findAllSql. rewrite H. reflexivity.
  - intro Hne. unfold Company.findAllSql.
    destruct (addWhere_cases Company.selectSql _
                (company_predicates_nonempty searchFilters))
      as [[Hnil _] | (p & Hp & _ & Heq)]; [contradiction|].
    exists p. split; [exact Hp|]. now rewrite Heq.
  - intro Hne. unfold Job.findAllSql.
    destruct (addWhere_cases Job.selectSql _
                (job_predicates_nonempty searchFilters))
      as [[Hnil _] | (p & Hp & _ & Heq)]; [contradiction|].
    exists p. split; [exact Hp|]. now rewrite Heq.
  - intros rt sql params k. unfold Company.findAll.
    destruct (gt _ _ _); [discriminate|].
    simpl. intro H. now injection H.
  - intros sql params k. unfold Job.findAll. simpl.
    intro H. now injection H.
Qed.

Lemma findAll_no_bare_where_witness :
  includes "WHERE" (Company.findAllSql [("minEmployees", VNum 0)]) = false /\
  includes "WHERE" (Job.findAllSql [("hasEquity", VBool false)]) = false /\
  (exists p, p <> EmptyString /\
     Company.findAllSql [("name", VStr "net")]
     = (Company.selectSql ++ " WHERE " ++ p) ++ " ORDER BY name").
Proof.
  split; [|split].
  - apply (proj1 (findAll_no_bare_where [("minEmployees", VNum 0)])).
    reflexivity.
  - apply (proj1 (proj2 (findAll_no_bare_where [("hasEquity", VBool false)]))).
    reflexivity.
  - apply (proj1 (proj2 (proj2 (findAll_no_bare_where [("name", VStr "net")])))).
    discriminate.
Defined.

(** Two texts are compared by code units, whatever the runtime: 10 and 9
    given as texts pass the range check. *)
Lemma findAll_text_bounds_pass (rt : Runtime) :
  Company.findAll rt [("minEmployees", VStr "10"); ("maxEmployees", VStr "9")]
  = Await (Company.selectSql
           ++ " WHERE num_employees >= $1 AND num_employees <= $2"
           ++ " ORDER BY name")
          [VStr "10"; VStr "9"] Resolve.
Proof. reflexivity. Qed.




(** C7. In [Job.findAll] the equity flag adds the predicate [equity > 0],
    after the predicates of the title and salary filters, exactly when it is
    strictly [true]; any other value adds no predicate; and the bound values
    do not depend on the flag at all. *)
Theorem findAll_hasEquity_strict (searchFilters : Object) :
  let hasEquity := prop searchFilters "hasEquity" in
  let others := [("title", prop searchFilters "title");
                 ("minSalary", prop searchFilters "minSalary")] in
  (hasEquity = VBool true ->
   whereValues (Job.filters searchFilters)
   = (whereValues (Job.filters others) ++ ["equity > 0"])%list) /\
  (hasEquity <> VBool true ->
   whereValues (Job.filters searchFilters) = whereValues (Job.filters others)) /\
  queryValues (Job.filters searchFilters) = queryValues (Job.filters others) /\
  ~ In "equity > 0" (whereValues (Job.filters others)) /\
  (In "equity > 0" (whereValues (Job.filters searchFilters))
   <-> hasEquity = VBool true).
Proof.
  intros hasEquity others.
  assert (Hw : whereValues (Job.filters searchFilters)
               = (whereValues (Job.filters others)
                  ++ (if isTrue hasEquity then ["equity > 0"] else []))%list).
  { rewrite !job_filters_present.
    change (prop others "hasEquity") with VUndefined.
    change (jobCandidates others) with (jobCandidates searchFilters).
    cbn [whereValues isTrue]. now rewrite app_nil_r. }
  assert (Hq : queryValues (Job.filters searchFilters)
               = queryValues (Job.filters others)).
  { rewrite !job_filters_present. reflexivity. }
  assert (Hnot : ~ In "equity > 0" (whereValues (Job.filters others))).
  { rewrite job_filters_present.
    change (prop others "hasEquity") with VUndefined.
    change (jobCandidates others) with (jobCandidates searchFilters).
    unfold jobCandidates, present, predicates; simpl.
    by_truthiness (prop searchFilters "title",
                   (prop searchFilters "minSalary", tt));
      simpl; intuition discriminate. }
  split; [|split; [|split; [|split]]].
  - intro H. now rewrite Hw, H.
  - intro H. rewrite Hw.
    destruct (isTrue hasEquity) eqn:E; [|apply app_nil_r].
    now apply isTrue_iff in E.
  - exact Hq.
  - exact Hnot.
  - rewrite Hw. split.
    + intro Hin. apply in_app_or in Hin as [Hin | Hin]; [contradiction|].
      destruct (isTrue hasEquity) eqn:E; [now apply isTrue_iff|contradiction].
    + intro H. rewrite H. apply in_or_app. right. now left.
Qed.

Lemma findAll_hasEquity_strict_witness :
  whereValues (Job.filters [("title", VStr "J"); ("hasEquity", VBool true)])
  = ["title ILIKE $1"; "equity > 0"] /\
  whereValues (Job.filters [("title", VStr "J"); ("hasEquity", VNum 1)])
  = ["title ILIKE $1"] /\
  whereValues (Job.filters [("title", VStr "J"); ("hasEquity", VStr "yes")])
  = ["title ILIKE $1"].
Proof.
  split; [|split].
  - apply (proj1 (findAll_hasEquity_strict
                    [("title", VStr "J"); ("hasEquity", VBool true)])).
    reflexivity.
  - apply (proj1 (proj2 (findAll_hasEquity_strict
                           [("title", VStr "J"); ("hasEquity", VNum 1)]))).
    discriminate.
  - apply (proj1 (proj2 (findAll_hasEquity_strict
                           [("title", VStr "J"); ("hasEquity", VStr "yes")]))).
    discriminate.
Defined.

(* ================================================================== *)
(** ** Company.create *)
(* ================================================================== *)

(** C3, as the code has it.  [Company.create] first reads the handle back
    from the store.  If that read returns a row, it rejects with the
    bad-request error (the class of the invalid-input errors) and nothing
    else is executed; if it returns no row, the insert is executed next,
    with the five fields in order, and the call resolves with the first row
    the insert returns. *)
Theorem create_duplicate_check
  (Db : Type) (execute : string -> list Value -> Db -> list Object * Db)
  (db db1 : Db) (data : Object) (found : list Object) :
  let handle := prop data "handle" in
  let fields := [handle; prop data "name"; prop data "description";
                 prop data "numEmployees"; prop data "logoUrl"] in
  execute Company.duplicateCheckSql [handle] db = (found, db1) ->
  (found <> [] ->
   run execute (Company.create data) db
   = (Rejected (BadRequestError ("Duplicate company: " ++ toString handle)),
      db1, [(Company.duplicateCheckSql, [handle])])) /\
  (found = [] ->
   forall (inserted : list Object) (db2 : Db),
     execute Company.insertSql fields db1 = (inserted, db2) ->
     run execute (Company.create data) db
     = (Fulfilled (first inserted), db2,
        [(Company.duplicateCheckSql, [handle]); (Company.insertSql, fields)])).
Proof.
  intros handle fields Hcheck. split.
  - intro Hfound. unfold Company.create; simpl.
    fold handle. rewrite Hcheck.
    destruct found as [|row rest]; [contradiction|reflexivity].
  - intros -> inserted db2 Hins. unfold Company.create; simpl.
    fold handle. rewrite Hcheck; simpl.
    fold handle fields. rewrite Hins. reflexivity.
Qed.

Lemma create_duplicate_check_witness :
  run MemDb.execute (Company.create c1) [c1Row]
  = (Rejected (BadRequestError "Duplicate company: c1"), [c1Row],
     [(Company.duplicateCheckSql, [VStr "c1"])]) /\
  run MemDb.execute (Company.create c1) []
  = (Fulfilled (Some c1), [c1Row],
     [(Company.duplicateCheckSql, [VStr "c1"]);
      (Company.insertSql,
       [VStr "c1"; VStr "C1"; VStr "Desc1"; VNum 1; VStr "http://c1.img"])]).
Proof.
  split.
  - apply (proj1 (create_duplicate_check MemDb.Db MemDb.execute
                    [c1Row] [c1Row] c1 [[("handle", VStr "c1")]] eq_refl)).
    discriminate.
  - apply (proj2 (create_duplicate_check MemDb.Db MemDb.execute
                    [] [] c1 [] eq_refl) eq_refl [c1] [c1Row] eq_refl).
Defined.

(** C3 as stated fails: the error of a duplicate handle is not of a class
    of its own.  It is a [BadRequestError], the class of the error an empty
    update is rejected with. *)
Lemma create_duplicate_is_bad_request :
  exists e e' : ExpressError,
    run MemDb.execute (Company.create c1) [c1Row]
    = (Rejected e, [c1Row], [(Company.duplicateCheckSql, [VStr "c1"])]) /\
    sqlForPartialUpdate [] Company.jsToSql = inl e' /\
    classOf e = BadRequest /\
    classOf e = classOf e'.
Proof.
  exists (BadRequestError "Duplicate company: c1"), (BadRequestError "No data").
  repeat split.
Qed.

(* ================================================================== *)
(** ** Company.update and Job.update *)
(* ================================================================== *)

Lemma company_update_nonempty (handle : Value) (data : Object) :
  data <> [] ->
  Company.update handle data
  = Await (Company.updateSql
             (join ", " (mapi (fragment Company.jsToSql) (keys data)))
             ("$" ++ showNat (List.length data + 1)))
          (JS.values data ++ [handle])%list
          (orNotFound "No company: " handle).
Proof.
  intro Hne. unfold Company.update.
  rewrite (sqlForPartialUpdate_nonempty _ _ Hne). simpl.
  now rewrite values_length.
Qed.

Lemma job_update_nonempty (id : Value) (data : Object) :
  data <> [] ->
  Job.update id data
  = Await (Job.updateSql
             (join ", " (mapi (fragment Job.jsToSql) (keys data)))
             ("$" ++ showNat (List.length data + 1)))
          (JS.values data ++ [id])%list
          (orNotFound "No job: " id).
Proof.
  intro Hne. unfold Job.update.
  rewrite (sqlForPartialUpdate_nonempty _ _ Hne). simpl.
  now rewrite values_length.
Qed.

Lemma run_await (Db : Type) (execute : string -> list Value -> Db -> list Object * Db)
  (A : Type) (sql : string) (params : list Value) (k : list Object -> Async A)
  (db : Db) :
  run execute (Await sql params k) db
  = let '(rows, db1) := execute sql params db in
    let '(out, db2, log) := run execute (k rows) db1 in
    (out, db2, (sql, params) :: log).
Proof. reflexivity. Qed.

Lemma nth_error_last_param (vals : list Value) (key : Value) :
  nth_error (vals ++ [key]) (List.length vals) = Some key.
Proof. rewrite nth_error_app2, Nat.sub_diag; [reflexivity|apply Nat.le_refl]. Qed.

(** C8. On non-empty data, [Company.update] sends one statement, written
    out below: its SET clause is the one [sqlForPartialUpdate] builds with
    the column map numEmployees -> num_employees, logoUrl -> logo_url; its
    WHERE compares the handle with the placeholder numbered (number of
    values + 1); its values are the update values followed by the handle.
    When the store returns no row the call rejects with the not-found
    error, otherwise it resolves with the first row.  [Job.update] does the
    same with the empty column map and the id. *)
Theorem update_delegates (key : Value) (data : Object) :
  data <> [] ->
  let n := List.length data in
  let companyMap := [("numEmployees", VStr "num_employees");
                     ("logoUrl", VStr "logo_url")] in
  let companySet := join ", " (mapi (fragment companyMap) (keys data)) in
  let jobSet := join ", " (mapi (fragment []) (keys data)) in
  let companySql :=
    "UPDATE companies " ++ nl ++
    "                      SET " ++ companySet ++ " " ++ nl ++
    "                      WHERE handle = $" ++ showNat (n + 1) ++ " " ++ nl ++
    "                      RETURNING handle, " ++ nl ++
    "                                name, " ++ nl ++
    "                                description, " ++ nl ++
    "                                num_employees AS " ++ dq ++ "numEmployees" ++ dq ++ ", " ++ nl ++
    "                                logo_url AS " ++ dq ++ "logoUrl" ++ dq in
  let jobSql :=
    "UPDATE jobs " ++ nl ++
    "                      SET " ++ jobSet ++ " " ++ nl ++
    "                      WHERE id = $" ++ showNat (n + 1) ++ " " ++ nl ++
    "                      RETURNING id, " ++ nl ++
    "                                title, " ++ nl ++
    "                                salary, " ++ nl ++
    "                                equity, " ++ nl ++
    "                                company_handle AS " ++ dq ++ "companyHandle" ++ dq in
  let params := (JS.values data ++ [key])%list in
  sqlForPartialUpdate data companyMap
  = inr {| setCols := companySet; values := JS.values data |} /\
  sqlForPartialUpdate data []
  = inr {| setCols := jobSet; values := JS.values data |} /\
  Company.update key data
  = Await companySql params (orNotFound "No company: " key) /\
  Job.update key data = Await jobSql params (orNotFound "No job: " key) /\
  nth_error params n = Some key /\
  List.length params = n + 1 /\
  forall (Db : Type) (execute : string -> list Value -> Db -> list Object * Db)
         (db db1 : Db),
    (execute companySql params db = ([], db1) ->
     run execute (Company.update key data) db
     = (Rejected (NotFoundError ("No company: " ++ toString key)), db1,
        [(companySql, params)])) /\
    (execute jobSql params db = ([], db1) ->
     run execute (Job.update key data) db
     = (Rejected (NotFoundError ("No job: " ++ toString key)), db1,
        [(jobSql, params)])) /\
    (forall row rows,
        execute companySql params db = (row :: rows, db1) ->
        run execute (Company.update key data) db
        = (Fulfilled row, db1, [(companySql, params)])) /\
    (forall row rows,
        execute jobSql params db = (row :: rows, db1) ->
        run execute (Job.update key data) db
        = (Fulfilled row, db1, [(jobSql, params)])).
Proof.
  intros Hne n companyMap companySet jobSet companySql jobSql params.
  assert (Hc : Company.update key data
               = Await companySql params (orNotFound "No company: " key))
    by exact (company_update_nonempty key data Hne).
  assert (Hj : Job.update key data
               = Await jobSql params (orNotFound "No job: " key))
    by exact (job_update_nonempty key data Hne).
  split; [now apply sqlForPartialUpdate_nonempty|].
  split; [now apply sqlForPartialUpdate_nonempty|].
  split; [exact Hc|]. split; [exact Hj|].
  split.
  { unfold params, n. rewrite <- (values_length data).
    apply nth_error_last_param. }
  split.
  { unfold params, n. rewrite length_app, values_length. reflexivity. }
  intros Db execute db db1. split; [|split; [|split]].
  - intro Hex. now rewrite Hc, run_await, Hex.
  - intro Hex. now rewrite Hj, run_await, Hex.
  - intros row rows Hex. now rewrite Hc, run_await, Hex.
  - intros row rows Hex. now rewrite Hj, run_await, Hex.
Qed.

Lemma update_delegates_witness :
  Company.update (VStr "c1") [("name", VStr "New"); ("numEmployees", VNum 7)]
  = Await
      ("UPDATE companies " ++ nl ++
       "                      SET " ++ dq ++ "name" ++ dq ++ "=$1, "
                                    ++ dq ++ "num_employees" ++ dq ++ "=$2 " ++ nl ++
       "                      WHERE handle = $3 " ++ nl ++
       "                      RETURNING handle, " ++ nl ++
       "                                name, " ++ nl ++
       "                                description, " ++ nl ++
       "                                num_employees AS " ++ dq ++ "numEmployees" ++ dq ++ ", " ++ nl ++
       "                                logo_url AS " ++ dq ++ "logoUrl" ++ dq)
      [VStr "New"; VNum 7; VStr "c1"]
      (orNotFound "No company: " (VStr "c1")) /\
  run (MemDb.canned [])
      (Job.update (VNum 999) [("title", VStr "New title")]) tt
  = (Rejected (NotFoundError "No job: 999"), tt,
     [("UPDATE jobs " ++ nl ++
       "                      SET " ++ dq ++ "title" ++ dq ++ "=$1 " ++ nl ++
       "                      WHERE id = $2 " ++ nl ++
       "                      RETURNING id, " ++ nl ++
       "                                title, " ++ nl ++
       "                                salary, " ++ nl ++
       "                                equity, " ++ nl ++
       "                                company_handle AS " ++ dq ++ "companyHandle" ++ dq,
       [VStr "New title"; VNum 999])]).
Proof.
  split.
  - apply (proj1 (proj2 (proj2 (update_delegates (VStr "c1")
             [("name", VStr "New"); ("numEmployees", VNum 7)]
             ltac:(discriminate))))).
  - destruct (update_delegates (VNum 999) [("title", VStr "New title")]
                ltac:(discriminate)) as (_ & _ & _ & _ & _ & _ & Hrun).
    destruct (Hrun unit (MemDb.canned []) tt tt) as (_ & Hjob & _).
    apply Hjob. reflexivity.
Defined.

(* ================================================================== *)
(** ** Which columns an update assigns *)
(* ================================================================== *)













(* ================================================================== *)
(** ** Further properties of the builder *)
(* ================================================================== *)

Lemma mapiFrom_ext_in {A B : Type} (f g : A -> nat -> B) (l : list A) :
  (forall x n, In x l -> f x n = g x n) ->
  forall i, mapiFrom f i l = mapiFrom g i l.
Proof.
  induction l as [|x l IH]; intros Hfg i; simpl; [reflexivity|].
  rewrite (Hfg x i (or_introl eq_refl)).
  rewrite IH; [reflexivity|].
  intros y n Hy. apply Hfg. now right.
Qed.

Lemma fragment_nonempty (jsToSql : Object) (colName : string) (idx : nat) :
  fragment jsToSql colName idx <> EmptyString.
Proof. unfold fragment, dq. discriminate. Qed.

(** X1. The text of the SET clause is made from the keys and the column map
    alone: two update mappings with the same keys, whatever their values,
    get the same SET text, and each gets back its own values. *)
Theorem sqlForPartialUpdate_values_stay_out
  (dataToUpdate dataToUpdate' jsToSql : Object) (sc : SetClause) :
  keys dataToUpdate = keys dataToUpdate' ->
  sqlForPartialUpdate dataToUpdate jsToSql = inr sc ->
  sqlForPartialUpdate dataToUpdate' jsToSql
  = inr {| setCols := setCols sc; values := JS.values dataToUpdate' |} /\
  values sc = JS.values dataToUpdate.
Proof.
  intros Hkeys Hsc.
  assert (Hne : dataToUpdate <> []).
  { intro E. subst dataToUpdate. discriminate Hsc. }
  assert (Hne' : dataToUpdate' <> []).
  { intro E. subst dataToUpdate'. destruct dataToUpdate; [contradiction|].
    discriminate Hkeys. }
  rewrite (sqlForPartialUpdate_nonempty _ _ Hne) in Hsc.
  injection Hsc as <-.
  rewrite (sqlForPartialUpdate_nonempty _ _ Hne'), Hkeys.
  split; reflexivity.
Qed.

Lemma sqlForPartialUpdate_values_stay_out_witness :
  sqlForPartialUpdate [("name", VStr "Other"); ("numEmployees", VNum 0)]
                      Company.jsToSql
  = inr {| setCols := dq ++ "name" ++ dq ++ "=$1, "
                      ++ dq ++ "num_employees" ++ dq ++ "=$2";
           values := [VStr "Other"; VNum 0] |}.
Proof.
  apply (proj1 (sqlForPartialUpdate_values_stay_out
                  [("name", VStr "New"); ("numEmployees", VNum 7)]
                  [("name", VStr "Other"); ("numEmployees", VNum 0)]
                  Company.jsToSql
                  {| setCols := dq ++ "name" ++ dq ++ "=$1, "
                                ++ dq ++ "num_employees" ++ dq ++ "=$2";
                     values := [VStr "New"; VNum 7] |}
                  eq_refl eq_refl)).
Defined.

(** X2. Only the column-map entries of the keys being updated matter: two
    column maps that agree on every key of the update mapping give the same
    result. *)
Theorem sqlForPartialUpdate_unused_entries
  (dataToUpdate jsToSql jsToSql' : Object) :
  (forall k, In k (keys dataToUpdate) -> prop jsToSql k = prop jsToSql' k) ->
  sqlForPartialUpdate dataToUpdate jsToSql
  = sqlForPartialUpdate dataToUpdate jsToSql'.
Proof.
  intro Hagree. unfold sqlForPartialUpdate.
  destruct (List.length (keys dataToUpdate) =? 0)%nat; [reflexivity|].
  f_equal. f_equal. f_equal. unfold mapi.
  apply mapiFrom_ext_in. intros k n Hk.
  unfold fragment, column. now rewrite (Hagree k Hk).
Qed.

Lemma sqlForPartialUpdate_unused_entries_witness :
  sqlForPartialUpdate [("name", VStr "New")] Company.jsToSql
  = sqlForPartialUpdate [("name", VStr "New")] Job.jsToSql.
Proof.
  apply sqlForPartialUpdate_unused_entries.
  intros k [<- | []]. reflexivity.
Defined.

(** X3. Whenever the builder succeeds, the SET text is not empty and there is
    at least one value: an update statement never has a bare SET. *)
Theorem sqlForPartialUpdate_never_bare_set
  (dataToUpdate jsToSql : Object) (sc : SetClause) :
  sqlForPartialUpdate dataToUpdate jsToSql = inr sc ->
  setCols sc <> EmptyString /\
  values sc <> [] /\
  List.length (values sc) = List.length dataToUpdate.
Proof.
  intro Hsc.
  assert (Hne : dataToUpdate <> []).
  { intro E. subst dataToUpdate. discriminate Hsc. }
  rewrite (sqlForPartialUpdate_nonempty _ _ Hne) in Hsc.
  injection Hsc as <-.
  change (join ", " (mapi (fragment jsToSql) (keys dataToUpdate)) <> EmptyString /\
          JS.values dataToUpdate <> [] /\
          List.length (JS.values dataToUpdate) = List.length dataToUpdate).
  destruct dataToUpdate as [|[k v] rest]; [contradiction|].
  split; [|split].
  - apply (join_nonempty ", " (fragment jsToSql k 0)), fragment_nonempty.
  - discriminate.
  - apply values_length.
Qed.

Lemma sqlForPartialUpdate_never_bare_set_witness :
  dq ++ "title" ++ dq ++ "=$1" <> EmptyString.
Proof.
  apply (proj1 (sqlForPartialUpdate_never_bare_set
                  [("title", VStr "New title")] Job.jsToSql
                  {| setCols := dq ++ "title" ++ dq ++ "=$1";
                     values := [VStr "New title"] |}
                  eq_refl)).
Defined.

(* ================================================================== *)
(** ** Further properties of the search *)
(* ================================================================== *)

Lemma company_predicates_truthiness (sf sf' : Object) :
  truthy (prop sf "name") = truthy (prop sf' "name") ->
  truthy (prop sf "minEmployees") = truthy (prop sf' "minEmployees") ->
  truthy (prop sf "maxEmployees") = truthy (prop sf' "maxEmployees") ->
  whereValues (Company.filters sf) = whereValues (Company.filters sf').
Proof.
  intros Hn Hmin Hmax. rewrite !company_filters_present.
  unfold companyCandidates, present, predicates; simpl.
  rewrite Hn, Hmin, Hmax.
  by_truthiness (prop sf' "name",
                 (prop sf' "minEmployees",
                  (prop sf' "maxEmployees", tt)));
    reflexivity.
Qed.

Lemma job_predicates_truthiness (sf sf' : Object) :
  truthy (prop sf "title") = truthy (prop sf' "title") ->
  truthy (prop sf "minSalary") = truthy (prop sf' "minSalary") ->
  isTrue (prop sf "hasEquity") = isTrue (prop sf' "hasEquity") ->
  whereValues (Job.filters sf) = whereValues (Job.filters sf').
Proof.
  intros Ht Hmin He. rewrite !job_filters_present.
  unfold jobCandidates, present, predicates; simpl.
  rewrite Ht, Hmin, He.
  by_truthiness (prop sf' "title", (prop sf' "minSalary", tt));
    reflexivity.
Qed.

(** X6. The filter values never enter the SQL text of [findAll]: the text is
    fixed by which filters pass their test, so two filter objects that pass
    the same tests get the same text, whatever the values are.  The values
    travel only in the positional list. *)
Theorem findAll_text_ignores_values (sf sf' : Object) :
  (truthy (prop sf "name") = truthy (prop sf' "name") ->
   truthy (prop sf "minEmployees") = truthy (prop sf' "minEmployees") ->
   truthy (prop sf "maxEmployees") = truthy (prop sf' "maxEmployees") ->
   Company.findAllSql sf = Company.findAllSql sf') /\
  (truthy (prop sf "title") = truthy (prop sf' "title") ->
   truthy (prop sf "minSalary") = truthy (prop sf' "minSalary") ->
   isTrue (prop sf "hasEquity") = isTrue (prop sf' "hasEquity") ->
   Job.findAllSql sf = Job.findAllSql sf').
Proof.
  split; intros H1 H2 H3.
  - unfold Company.findAllSql.
    now rewrite (company_predicates_truthiness sf sf' H1 H2 H3).
  - unfold Job.findAllSql.
    now rewrite (job_predicates_truthiness sf sf' H1 H2 H3).
Qed.

Lemma findAll_text_ignores_values_witness :
  Company.findAllSql [("name", VStr "x' OR 1=1 --"); ("maxEmployees", VNum 3)]
  = Company.findAllSql [("name", VStr "net"); ("maxEmployees", VNum 500)].
Proof.
  apply (proj1 (findAll_text_ignores_values
                  [("name", VStr "x' OR 1=1 --"); ("maxEmployees", VNum 3)]
                  [("name", VStr "net"); ("maxEmployees", VNum 500)]));
    reflexivity.
Defined.

(** X7. In the text of [findAll] the number of [$] placeholders is the number
    of positional values handed to the store with it, for companies and for
    jobs and for every filter object. *)
Theorem findAll_placeholders_match_values (searchFilters : Object) :
  countChar "$" (Company.findAllSql searchFilters)
  = List.length (queryValues (Company.filters searchFilters)) /\
  countChar "$" (Job.findAllSql searchFilters)
  = List.length (queryValues (Job.filters searchFilters)).
Proof.
  split.
  - unfold Company.findAllSql. rewrite company_filters_present.
    unfold companyCandidates, present, predicates; simpl.
    by_truthiness (prop searchFilters "name",
                   (prop searchFilters "minEmployees",
                    (prop searchFilters "maxEmployees", tt)));
      reflexivity.
  - unfold Job.findAllSql. rewrite job_filters_present.
    unfold jobCandidates, present, predicates; simpl.
    by_truthiness (prop searchFilters "title",
                   (prop searchFilters "minSalary", tt));
      destruct (isTrue (prop searchFilters "hasEquity")); reflexivity.
Qed.

Lemma gt_undefined_right (rt : Runtime) (v : Value) :
  gt rt v VUndefined = false.
Proof. now destruct v as [| |[|]| | | |]. Qed.

Lemma gt_undefined_left (rt : Runtime) (v : Value) :
  gt rt VUndefined v = false.
Proof. now destruct v as [| |[|]| | | |]. Qed.

Lemma company_findAll_passes (rt : Runtime) (searchFilters : Object) :
  gt rt (prop searchFilters "minEmployees") (prop searchFilters "maxEmployees")
  = false ->
  Company.findAll rt searchFilters
  = Await (Company.findAllSql searchFilters)
          (queryValues (Company.filters searchFilters)) Resolve.
Proof. intro H. unfold Company.findAll. now rewrite H. Qed.

Lemma runFallible_await (Db : Type)
  (execute : string -> list Value -> Db -> (string + list Object) * Db)
  (A : Type) (sql : string) (params : list Value) (k : list Object -> Async A)
  (db : Db) :
  runFallible execute (Await sql params k) db
  = match execute sql params db with
    | (inl message, db1) => (inl (StoreFailure message), db1, [(sql, params)])
    | (inr rows, db1) =>
        let '(out, db2, log) := runFallible execute (k rows) db1 in
        (out, db2, (sql, params) :: log)
    end.
Proof. reflexivity. Qed.

(** The two ways of running a call agree on a store that always answers. *)
Lemma runFallible_answering (Db : Type)
  (execute : string -> list Value -> Db -> list Object * Db)
  (A : Type) (p : Async A) :
  forall db : Db,
    runFallible (answering execute) p db
    = let '(out, db1, log) := run execute p db in
      (match out with
       | Fulfilled a => inr a
       | Rejected e => inl (Thrown e)
       end, db1, log).
Proof.
  induction p as [a | e | sql params k IH]; intro db; [reflexivity..|].
  rewrite runFallible_await, run_await. unfold answering at 1.
  destruct (execute sql params db) as [rows db1].
  rewrite IH. now destruct (run execute (k rows) db1) as [[out db2] log].
Qed.

(** X8. [Company.findAll] throws an error of its own exactly when its test
    [minEmployees > maxEmployees] holds.  Otherwise, and [Job.findAll]
    always, it executes exactly one statement: if the store fails it, the
    call ends with the store's error; if the store answers, the call
    resolves with the rows returned, none included. *)
Theorem findAll_rejects_only_on_range (rt : Runtime) (searchFilters : Object) :
  ((exists e, Company.findAll rt searchFilters = Reject e) <->
   gt rt (prop searchFilters "minEmployees")
         (prop searchFilters "maxEmployees") = true) /\
  (forall (Db : Type)
          (execute : string -> list Value -> Db -> (string + list Object) * Db)
          (db : Db),
      (gt rt (prop searchFilters "minEmployees")
             (prop searchFilters "maxEmployees") = false ->
       runFallible execute (Company.findAll rt searchFilters) db
       = match execute (Company.findAllSql searchFilters)
                       (queryValues (Company.filters searchFilters)) db with
         | (inl message, db1) =>
             (inl (StoreFailure message), db1,
              [(Company.findAllSql searchFilters,
                queryValues (Company.filters searchFilters))])
         | (inr rows, db1) =>
             (inr rows, db1,
              [(Company.findAllSql searchFilters,
                queryValues (Company.filters searchFilters))])
         end) /\
      runFallible execute (Job.findAll searchFilters) db
      = match execute (Job.findAllSql searchFilters)
                      (queryValues (Job.filters searchFilters)) db with
        | (inl message, db1) =>
            (inl (StoreFailure message), db1,
             [(Job.findAllSql searchFilters,
               queryValues (Job.filters searchFilters))])
        | (inr rows, db1) =>
            (inr rows, db1,
             [(Job.findAllSql searchFilters,
               queryValues (Job.filters searchFilters))])
        end).
Proof.
  split.
  - split.
    + intros [e He]. destruct (gt _ _ _) eqn:E; [reflexivity|].
      rewrite (company_findAll_passes _ _ E) in He. discriminate He.
    + intro H. eexists. unfold Company.findAll. rewrite H. reflexivity.
  - intros Db execute db. split.
    + intros Hgt. rewrite (company_findAll_passes _ _ Hgt), runFallible_await.
      now destruct (execute _ _ db) as [[message | rows] db1].
    + unfold Job.findAll, db_query. cbn [bind]. rewrite runFallible_await.
      now destruct (execute _ _ db) as [[message | rows] db1].
Qed.

Lemma findAll_rejects_only_on_range_witness :
  runFallible (MemDb.failing "relation does not exist")
              (Company.findAll plainRuntime [("minEmployees", VNum 2)]) tt
  = (inl (StoreFailure "relation does not exist"), tt,
     [(Company.findAllSql [("minEmployees", VNum 2)], [VNum 2])]).
Proof.
  destruct (findAll_rejects_only_on_range plainRuntime
              [("minEmployees", VNum 2)]) as [_ Hrun].
  apply (proj1 (Hrun unit (MemDb.failing "relation does not exist") tt)).
  reflexivity.
Defined.

(** X9. The range check needs both bounds: when either bound is absent, or when
    both are numbers with min <= max, [Company.findAll] goes on to the
    store with its one statement. *)
Theorem findAll_open_range (rt : Runtime) (searchFilters : Object) :
  prop searchFilters "minEmployees" = VUndefined \/
  prop searchFilters "maxEmployees" = VUndefined \/
  (exists a b : Z,
      prop searchFilters "minEmployees" = VNum a /\
      prop searchFilters "maxEmployees" = VNum b /\ (a <= b)%Z) ->
  Company.findAll rt searchFilters
  = Await (Company.findAllSql searchFilters)
          (queryValues (Company.filters searchFilters)) Resolve.
Proof.
  intro H. apply company_findAll_passes.
  destruct H as [-> | [-> | (a & b & -> & -> & Hle)]].
  - apply gt_undefined_left.
  - apply gt_undefined_right.
  - rewrite gt_numbers. now apply Z.ltb_ge.
Qed.

Lemma findAll_open_range_witness :
  Company.findAll plainRuntime [("minEmployees", VNum 5)]
  = Await (Company.selectSql ++ " WHERE num_employees >= $1" ++ " ORDER BY name")
          [VNum 5] Resolve.
Proof.
  apply (findAll_open_range plainRuntime [("minEmployees", VNum 5)]).
  right. left. reflexivity.
Defined.

(* ================================================================== *)
(** ** Records: reading, assigning, deleting *)
(* ================================================================== *)

Lemma assoc_ofRow (row : Object) (k : string) :
  assoc (ofRow row) k = option_map FValue (assoc row k).
Proof.
  induction row as [|[k' v] row IH]; simpl; [reflexivity|].
  now destruct (k' =? k).
Qed.

Lemma assoc_assign_same (o : Entity) (k : string) (f : Field) :
  assoc (assignProp o k f) k = Some f.
Proof.
  induction o as [|[k' f'] o IH]; simpl.
  - now rewrite String.eqb_refl.
  - destruct (k' =? k) eqn:E; simpl; now rewrite E.
Qed.

Lemma assoc_assign_other (o : Entity) (k k' : string) (f : Field) :
  k' <> k -> assoc (assignProp o k f) k' = assoc o k'.
Proof.
  intro Hne. induction o as [|[k0 f0] o IH]; simpl.
  - apply String.eqb_neq in Hne. rewrite String.eqb_sym in Hne.
    now rewrite Hne.
  - destruct (k0 =? k) eqn:E; simpl.
    + apply String.eqb_eq in E. subst k0.
      apply not_eq_sym, String.eqb_neq in Hne. now rewrite Hne.
    + now rewrite IH.
Qed.

Lemma assoc_delete_same (o : Entity) (k : string) :
  assoc (deleteProp o k) k = None.
Proof.
  induction o as [|[k0 f0] o IH]; simpl; [reflexivity|].
  destruct (k0 =? k) eqn:E; simpl; [exact IH|].
  now rewrite E.
Qed.

Lemma assoc_delete_other (o : Entity) (k k' : string) :
  k' <> k -> assoc (deleteProp o k) k' = assoc o k'.
Proof.
  intro Hne. induction o as [|[k0 f0] o IH]; simpl; [reflexivity|].
  destruct (k0 =? k) eqn:E; simpl.
  - apply String.eqb_eq in E. subst k0.
    apply not_eq_sym, String.eqb_neq in Hne. now rewrite Hne.
  - now rewrite IH.
Qed.

Lemma field_ofRow (row : Object) (k : string) :
  field (ofRow row) k = FValue (prop row k).
Proof.
  unfold field, prop, ownProp. rewrite assoc_ofRow.
  destruct (assoc row k); [reflexivity|].
  now destruct (inherited k).
Qed.

Lemma field_assign_same (o : Entity) (k : string) (f : Field) :
  field (assignProp o k f) k = f.
Proof. unfold field. now rewrite assoc_assign_same. Qed.

Lemma field_assign_other (o : Entity) (k k' : string) (f : Field) :
  k' <> k -> field (assignProp o k f) k' = field o k'.
Proof. intro Hne. unfold field. now rewrite assoc_assign_other. Qed.

Lemma keys_assign_new (o : Entity) (k : string) (f : Field) :
  ~ In k (map fst o) -> map fst (assignProp o k f) = (map fst o ++ [k])%list.
Proof.
  induction o as [|[k0 f0] o IH]; simpl; intro Hnot; [reflexivity|].
  destruct (k0 =? k) eqn:E.
  - apply String.eqb_eq in E. exfalso. apply Hnot. now left.
  - simpl. rewrite IH; [reflexivity|]. intro Hin. apply Hnot. now right.
Qed.

Lemma keys_assign_old (o : Entity) (k : string) (f : Field) :
  In k (map fst o) -> map fst (assignProp o k f) = map fst o.
Proof.
  induction o as [|[k0 f0] o IH]; simpl; intro Hin; [contradiction|].
  destruct (k0 =? k) eqn:E; simpl; [reflexivity|].
  rewrite IH; [reflexivity|].
  destruct Hin as [Heq | Hin]; [|exact Hin].
  apply String.eqb_neq in E. contradiction.
Qed.

Lemma keys_ofRow (row : Object) : map fst (ofRow row) = keys row.
Proof. unfold ofRow, keys. rewrite map_map. reflexivity. Qed.

Lemma field_delete_same (o : Entity) (k : string) :
  inherited k = None -> field (deleteProp o k) k = FValue VUndefined.
Proof. intro Hk. unfold field. now rewrite assoc_delete_same, Hk. Qed.

Lemma field_delete_other (o : Entity) (k k' : string) :
  k' <> k -> field (deleteProp o k) k' = field o k'.
Proof. intro Hne. unfold field. now rewrite assoc_delete_other. Qed.

Lemma keys_delete (o : Entity) (k : string) :
  ~ In k (map fst (deleteProp o k)).
Proof.
  unfold deleteProp. rewrite in_map_iff.
  intros ([k0 f0] & Heq & Hin). simpl in Heq. subst k0.
  apply filter_In in Hin as [_ Hkeep]. simpl in Hkeep.
  now rewrite String.eqb_refl in Hkeep.
Qed.

Lemma keys_delete_incl (o : Entity) (k k' : string) :
  In k' (map fst (deleteProp o k)) -> In k' (map fst o).
Proof.
  unfold deleteProp. rewrite !in_map_iff.
  intros (kf & Heq & Hin). apply filter_In in Hin as [Hin _].
  now exists kf.
Qed.

Lemma keys_assign_cases (o : Entity) (k k' : string) (f : Field) :
  In k' (map fst (assignProp o k f)) -> k' = k \/ In k' (map fst o).
Proof.
  induction o as [|[k0 f0] o IH]; simpl.
  - intros [<- | []]. now left.
  - destruct (k0 =? k) eqn:E; simpl.
    + intros [<- | Hin]; right; [now left | now right].
    + intros [<- | Hin]; [right; now left|].
      destruct (IH Hin) as [-> | Hin']; [now left | right; now right].
Qed.

(* ================================================================== *)
(** ** Company.get, Job.get *)
(* ================================================================== *)

(** X10. [Company.get] on a handle the store has no row for: the call rejects
    with the not-found error naming the handle, and the jobs query is never
    executed. *)
Theorem company_get_not_found
  (Db : Type) (execute : string -> list Value -> Db -> list Object * Db)
  (db db1 : Db) (handle : Value) :
  execute Company.getSql [handle] db = ([], db1) ->
  run execute (Company.get handle) db
  = (Rejected (NotFoundError ("No company: " ++ toString handle)), db1,
     [(Company.getSql, [handle])]).
Proof.
  intro Hex. unfold Company.get. step_query Hex. reflexivity.
Qed.

Lemma company_get_not_found_witness :
  run (MemDb.scripted []) (Company.get (VStr "nope")) tt
  = (Rejected (NotFoundError "No company: nope"), tt,
     [(Company.getSql, [VStr "nope"])]).
Proof.
  apply (company_get_not_found unit (MemDb.scripted []) tt tt (VStr "nope")).
  reflexivity.
Defined.

(** X11. [Company.get] on a handle the store has a row for: two statements are
    executed, both bound to the handle alone; the call resolves with the
    first company row in which the property jobs holds all the rows of the
    second query (none included) and every other property is as the store
    returned it.  The jobs property comes last, unless the row already had
    one, which is then overwritten in place. *)
Theorem company_get_attaches_jobs
  (Db : Type) (execute : string -> list Value -> Db -> list Object * Db)
  (db db1 db2 : Db) (handle : Value) (company : Object)
  (others jobs : list Object) :
  execute Company.getSql [handle] db = (company :: others, db1) ->
  execute Company.getJobsSql [handle] db1 = (jobs, db2) ->
  exists result : Entity,
    run execute (Company.get handle) db
    = (Fulfilled result, db2,
       [(Company.getSql, [handle]); (Company.getJobsSql, [handle])]) /\
    field result "jobs" = FArray jobs /\
    (forall k, k <> "jobs" -> field result k = FValue (prop company k)) /\
    (~ In "jobs" (keys company) ->
     map fst result = (keys company ++ ["jobs"])%list) /\
    (In "jobs" (keys company) -> map fst result = keys company).
Proof.
  intros Hex1 Hex2.
  exists (assignProp (ofRow company) "jobs" (FArray jobs)).
  split; [|split; [|split; [|split]]].
  - unfold Company.get. step_query Hex1. step_query Hex2. reflexivity.
  - apply field_assign_same.
  - intros k Hk. now rewrite field_assign_other, field_ofRow.
  - intro Hnot. rewrite keys_assign_new; rewrite keys_ofRow; auto.
  - intro Hin. rewrite keys_assign_old; rewrite keys_ofRow; auto.
Qed.

Lemma company_get_attaches_jobs_witness :
  exists result : Entity,
    run (MemDb.scripted [(Company.getSql, [c1]); (Company.getJobsSql, c1Jobs)])
        (Company.get (VStr "c1")) tt
    = (Fulfilled result, tt,
       [(Company.getSql, [VStr "c1"]); (Company.getJobsSql, [VStr "c1"])]) /\
    field result "jobs" = FArray c1Jobs /\
    field result "name" = FValue (VStr "C1") /\
    map fst result
    = ["handle"; "name"; "description"; "numEmployees"; "logoUrl"; "jobs"].
Proof.
  destruct (company_get_attaches_jobs unit
              (MemDb.scripted
                 [(Company.getSql, [c1]); (Company.getJobsSql, c1Jobs)])
              tt tt tt (VStr "c1") c1 [] c1Jobs eq_refl eq_refl)
    as (result & Hrun & Hjobs & Hother & Hnew & _).
  exists result. split; [exact Hrun|]. split; [exact Hjobs|]. split.
  - apply Hother. discriminate.
  - apply Hnew. simpl. intuition discriminate.
Defined.

(** X12. [Job.get] on an id the store has no row for: the call rejects with the
    not-found error naming the id, and the company query is never
    executed. *)
Theorem job_get_not_found
  (Db : Type) (execute : string -> list Value -> Db -> list Object * Db)
  (db db1 : Db) (id : Value) :
  execute Job.getSql [id] db = ([], db1) ->
  run execute (Job.get id) db
  = (Rejected (NotFoundError ("No job: " ++ toString id)), db1,
     [(Job.getSql, [id])]).
Proof.
  intro Hex. unfold Job.get. step_query Hex. reflexivity.
Qed.

Lemma job_get_not_found_witness :
  run (MemDb.scripted []) (Job.get (VNum 999)) tt
  = (Rejected (NotFoundError "No job: 999"), tt, [(Job.getSql, [VNum 999])]).
Proof.
  apply (job_get_not_found unit (MemDb.scripted []) tt tt (VNum 999)).
  reflexivity.
Defined.

(** X13. [Job.get] on an id the store has a row for: the second statement is
    bound to the companyHandle of that row, not to the id.  Whatever that
    query returns, the call resolves: the result has no companyHandle
    property any more, its company property is the first company row, or
    undefined when there is none, and every other property is as the store
    returned it. *)
Theorem job_get_nests_company
  (Db : Type) (execute : string -> list Value -> Db -> list Object * Db)
  (db db1 db2 : Db) (id : Value) (job : Object)
  (others companies : list Object) :
  execute Job.getSql [id] db = (job :: others, db1) ->
  execute Job.getCompanySql [prop job "companyHandle"] db1 = (companies, db2) ->
  exists result : Entity,
    run execute (Job.get id) db
    = (Fulfilled result, db2,
       [(Job.getSql, [id]);
        (Job.getCompanySql, [prop job "companyHandle"])]) /\
    field result "company" = firstField companies /\
    ~ In "companyHandle" (map fst result) /\
    field result "companyHandle" = FValue VUndefined /\
    (forall k, k <> "company" -> k <> "companyHandle" ->
               field result k = FValue (prop job k)).
Proof.
  intros Hex1 Hex2.
  exists (assignProp (deleteProp (ofRow job) "companyHandle") "company"
            (firstField companies)).
  split; [|split; [|split; [|split]]].
  - unfold Job.get. step_query Hex1. step_query Hex2. reflexivity.
  - apply field_assign_same.
  - intro Hin. apply keys_assign_cases in Hin as [Heq | Hin].
    + discriminate Heq.
    + exact (keys_delete _ _ Hin).
  - rewrite field_assign_other by discriminate.
    now apply field_delete_same.
  - intros k Hc Hh.
    now rewrite field_assign_other, field_delete_other, field_ofRow.
Qed.

Lemma job_get_nests_company_witness :
  exists result : Entity,
    run (MemDb.scripted [(Job.getSql, [j1Row])]) (Job.get (VNum 1)) tt
    = (Fulfilled result, tt,
       [(Job.getSql, [VNum 1]); (Job.getCompanySql, [VStr "c1"])]) /\
    field result "company" = FValue VUndefined /\
    field result "title" = FValue (VStr "J1").
Proof.
  destruct (job_get_nests_company unit
              (MemDb.scripted [(Job.getSql, [j1Row])])
              tt tt tt (VNum 1) j1Row [] [] eq_refl eq_refl)
    as (result & Hrun & Hcompany & _ & _ & Hother).
  exists result. split; [exact Hrun|]. split; [exact Hcompany|].
  apply Hother; discriminate.
Defined.

(* ================================================================== *)
(** ** remove, Job.create *)
(* ================================================================== *)

Lemma assoc_absent {A : Type} (l : list (string * A)) (k : string) :
  ~ In k (map fst l) -> assoc l k = None.
Proof.
  induction l as [|[k' a] l IH]; simpl; intro Hnot; [reflexivity|].
  destruct (k' =? k) eqn:E.
  - apply String.eqb_eq in E. exfalso. apply Hnot. now left.
  - apply IH. intro Hin. apply Hnot. now right.
Qed.

Lemma prop_absent (o : Object) (k : string) :
  ~ In k (keys o) -> inherited k = None -> prop o k = VUndefined.
Proof.
  intros Hnot Hk. unfold prop, ownProp.
  now rewrite (assoc_absent _ _ Hnot), Hk.
Qed.

(** X14. [Company.remove] and [Job.remove] execute their one DELETE bound to the
    key alone; they reject with the not-found error naming the key exactly
    when the statement returns no row, and resolve with nothing otherwise. *)
Theorem remove_rejects_iff_no_row
  (Db : Type) (execute : string -> list Value -> Db -> list Object * Db)
  (db db1 : Db) (key : Value) (rows : list Object) :
  (execute Company.removeSql [key] db = (rows, db1) ->
   run execute (Company.remove key) db
   = (match rows with
      | [] => Rejected (NotFoundError ("No company: " ++ toString key))
      | _ :: _ => Fulfilled tt
      end, db1, [(Company.removeSql, [key])])) /\
  (execute Job.removeSql [key] db = (rows, db1) ->
   run execute (Job.remove key) db
   = (match rows with
      | [] => Rejected (NotFoundError ("No job: " ++ toString key))
      | _ :: _ => Fulfilled tt
      end, db1, [(Job.removeSql, [key])])).
Proof.
  split; intro Hex.
  - unfold Company.remove. step_query Hex. now destruct rows.
  - unfold Job.remove. step_query Hex. now destruct rows.
Qed.

Lemma remove_rejects_iff_no_row_witness :
  run (MemDb.scripted [(Company.removeSql, [[("handle", VStr "c1")]])])
      (Company.remove (VStr "c1")) tt
  = (Fulfilled tt, tt, [(Company.removeSql, [VStr "c1"])]) /\
  run (MemDb.scripted []) (Job.remove (VNum 999)) tt
  = (Rejected (NotFoundError "No job: 999"), tt,
     [(Job.removeSql, [VNum 999])]).
Proof.
  split.
  - apply (proj1 (remove_rejects_iff_no_row unit
                    (MemDb.scripted
                       [(Company.removeSql, [[("handle", VStr "c1")]])])
                    tt tt (VStr "c1") [[("handle", VStr "c1")]])).
    reflexivity.
  - apply (proj2 (remove_rejects_iff_no_row unit (MemDb.scripted [])
                    tt tt (VNum 999) [])).
    reflexivity.
Defined.

(** X15. [Job.create] has no check and no error of its own: whatever the
    data, it executes the one INSERT, bound to title, salary, equity and
    companyHandle in that order.  If the store fails the statement, the call
    ends with the store's error; if the store answers, the call resolves
    with the first returned row, or undefined when none comes back.  A
    field the data lacks is bound as undefined. *)
Theorem job_create_unconditional
  (Db : Type)
  (execute : string -> list Value -> Db -> (string + list Object) * Db)
  (db : Db) (data : Object) :
  let fields := [prop data "title"; prop data "salary"; prop data "equity";
                 prop data "companyHandle"] in
  runFallible execute (Job.create data) db
  = match execute Job.createSql fields db with
    | (inl message, db1) =>
        (inl (StoreFailure message), db1, [(Job.createSql, fields)])
    | (inr rows, db1) =>
        (inr (first rows), db1, [(Job.createSql, fields)])
    end /\
  (forall i k,
      nth_error ["title"; "salary"; "equity"; "companyHandle"] i = Some k ->
      ~ In k (keys data) ->
      nth_error fields i = Some VUndefined).
Proof.
  intros fields. split.
  - unfold Job.create, db_query. fold fields. cbn [bind].
    rewrite runFallible_await.
    now destruct (execute _ _ db) as [[message | rows] db1].
  - intros i k Hi Hnot.
    do 4 (destruct i as [|i];
          [injection Hi as <-; unfold fields; cbn [nth_error];
           now rewrite (prop_absent _ _ Hnot eq_refl)|]).
    now destruct i.
Qed.

Lemma job_create_unconditional_witness :
  runFallible (MemDb.failing "violates foreign key constraint")
              (Job.create [("title", VStr "J1"); ("companyHandle", VStr "nope")])
              tt
  = (inl (StoreFailure "violates foreign key constraint"), tt,
     [(Job.createSql, [VStr "J1"; VUndefined; VUndefined; VStr "nope"])]) /\
  nth_error [prop [("title", VStr "J1"); ("companyHandle", VStr "nope")] "title";
             prop [("title", VStr "J1"); ("companyHandle", VStr "nope")] "salary";
             prop [("title", VStr "J1"); ("companyHandle", VStr "nope")] "equity";
             prop [("title", VStr "J1"); ("companyHandle", VStr "nope")]
                  "companyHandle"] 1
  = Some VUndefined.
Proof.
  destruct (job_create_unconditional unit
              (MemDb.failing "violates foreign key constraint") tt
              [("title", VStr "J1"); ("companyHandle", VStr "nope")])
    as [Hrun Hmissing].
  split; [exact Hrun|].
  apply (Hmissing 1 "salary" eq_refl).
  simpl. intuition discriminate.
Defined.

(* ================================================================== *)
(** ** Placeholders of an update *)
(* ================================================================== *)

Lemma countChar_app (c : ascii) (a b : string) :
  countChar c (a ++ b) = countChar c a + countChar c b.
Proof.
  induction a as [|x a IH]; simpl; [reflexivity|].
  rewrite IH. lia.
Qed.

Lemma countChar_uint (u : Decimal.uint) :
  countChar "$" (NilEmpty.string_of_uint u) = 0.
Proof. induction u; simpl; auto. Qed.

Lemma countChar_fragment (jsToSql : Object) (colName : string) (idx : nat) :
  countChar "$" (fragment jsToSql colName idx)
  = countChar "$" (column jsToSql colName) + 1.
Proof.
  unfold fragment, showNat. rewrite !countChar_app, countChar_uint.
  change (countChar "$" dq) with 0.
  change (countChar "$" "=$") with 1. lia.
Qed.

Lemma countChar_join_fragments (jsToSql : Object) (l : list string) :
  (forall k, In k l -> countChar "$" (column jsToSql k) = 0) ->
  forall i,
    countChar "$" (join ", " (mapiFrom (fragment jsToSql) i l)) = List.length l.
Proof.
  induction l as [|k l IH]; intros Hclean i; [reflexivity|].
  assert (Hk : countChar "$" (fragment jsToSql k i) = 1).
  { rewrite countChar_fragment, (Hclean k (or_introl eq_refl)). reflexivity. }
  assert (Hl : forall k', In k' l -> countChar "$" (column jsToSql k') = 0).
  { intros k' Hin. apply Hclean. now right. }
  specialize (IH Hl (S i)).
  destruct l as [|k' l'].
  - exact Hk.
  - change (countChar "$"
              (fragment jsToSql k i ++ ", "
               ++ join ", " (mapiFrom (fragment jsToSql) (S i) (k' :: l')))
            = S (List.length (k' :: l'))).
    rewrite !countChar_app, Hk, IH.
    change (countChar "$" ", ") with 0. lia.
Qed.

(** X4. As long as no column name contains a [$], the SET text has exactly as
    many [$] placeholders as the builder returns values. *)
Theorem setCols_placeholders_match_values
  (dataToUpdate jsToSql : Object) (sc : SetClause) :
  sqlForPartialUpdate dataToUpdate jsToSql = inr sc ->
  (forall k, In k (keys dataToUpdate) ->
             countChar "$" (column jsToSql k) = 0) ->
  countChar "$" (setCols sc) = List.length (values sc).
Proof.
  intros Hsc Hclean.
  assert (Hne : dataToUpdate <> []).
  { intro E. subst dataToUpdate. discriminate Hsc. }
  rewrite (sqlForPartialUpdate_nonempty _ _ Hne) in Hsc.
  injection Hsc as <-.
  change (countChar "$" (join ", " (mapi (fragment jsToSql) (keys dataToUpdate)))
          = List.length (JS.values dataToUpdate)).
  unfold mapi. rewrite (countChar_join_fragments _ _ Hclean).
  now rewrite keys_length, values_length.
Qed.

Lemma setCols_placeholders_match_values_witness :
  countChar "$" (dq ++ "name" ++ dq ++ "=$1, "
                 ++ dq ++ "num_employees" ++ dq ++ "=$2") = 2.
Proof.
  apply (setCols_placeholders_match_values
           [("name", VStr "New"); ("numEmployees", VNum 7)] Company.jsToSql
           {| setCols := dq ++ "name" ++ dq ++ "=$1, "
                         ++ dq ++ "num_employees" ++ dq ++ "=$2";
              values := [VStr "New"; VNum 7] |}
           eq_refl).
  intros k [<- | [<- | []]]; reflexivity.
Defined.


